(** * djblets.log.middleware: LoggingMiddleware

    A shallow embedding of [djblets/log/middleware.py] and the properties of
    its three hooks ([process_request], [process_view], [process_response])
    and two helpers ([ensure_loggers], [ensure_profile_logger]).

    The module-level globals [_logging_setup] and [_profile_log], the
    middleware's [self.profiler] attribute, [sys.stdout] and the state of
    Python's [logging] module are threaded explicitly through a state and
    exception monad.  The parts of the Python standard library the file calls
    ([os.path.join], [logging], [cProfile]/[pstats]) are modelled by their
    documented behaviour, each in a module of its own name. *)

From Stdlib Require Import ZArith List String Ascii Bool Lia.
From Stdlib Require Import DecimalString.
Import ListNotations.
Open Scope string_scope.
Open Scope Z_scope.

(** ** Python values the code tests for truth *)

(** [not x] on a string-or-None value: None and the empty string are false. *)
Definition truthy_str (o : option string) : bool :=
  match o with
  | None => false
  | Some s => negb (String.eqb s "")
  end.

(** [getattr(settings, name, default)] on an attribute that may be absent. *)
Definition getattr {A : Type} (attr : option A) (default : A) : A :=
  match attr with
  | Some a => a
  | None => default
  end.

(** [s.strip()]: whitespace removed at both ends. *)
Definition is_space (c : ascii) : bool :=
  match c with
  | " "%char | "009"%char | "010"%char | "011"%char | "012"%char | "013"%char => true
  | _ => false
  end.

Fixpoint lstrip (s : string) : string :=
  match s with
  | String c r => if is_space c then lstrip r else s
  | EmptyString => EmptyString
  end.

Fixpoint rstrip (s : string) : string :=
  match s with
  | EmptyString => EmptyString
  | String c r =>
      match rstrip r with
      | EmptyString => if is_space c then EmptyString else String c EmptyString
      | r' => String c r'
      end
  end.

Definition strip (s : string) : string := rstrip (lstrip s).

(** ** os.path (posixpath) *)

Module os_path.

Definition startswith_slash (s : string) : bool :=
  match s with
  | String "/"%char _ => true
  | _ => false
  end.

Fixpoint endswith_slash (s : string) : bool :=
  match s with
  | EmptyString => false
  | String c EmptyString => Ascii.eqb c "/"%char
  | String _ r => endswith_slash r
  end.

(** [posixpath.join(a, b)]: an absolute [b] replaces [a]; otherwise the
    two are concatenated with exactly one separator in between. *)
Definition join (a b : string) : string :=
  if startswith_slash b then b
  else if (String.eqb a "" || endswith_slash a)%bool then a ++ b
  else a ++ "/" ++ b.

End os_path.

(** ** logging *)

Module logging.

Definition NOTSET : Z := 0.
Definition DEBUG : Z := 10.
Definition INFO : Z := 20.
Definition WARNING : Z := 30.
Definition ERROR : Z := 40.
Definition CRITICAL : Z := 50.

(** The level names the middleware's documentation allows for
    [LOGGING_LEVEL]. *)
Inductive LevelName := L_DEBUG | L_INFO | L_WARNING | L_ERROR | L_CRITICAL.

Definition level_name_str (n : LevelName) : string :=
  match n with
  | L_DEBUG => "DEBUG"
  | L_INFO => "INFO"
  | L_WARNING => "WARNING"
  | L_ERROR => "ERROR"
  | L_CRITICAL => "CRITICAL"
  end.

(** [logging.getLevelName(name)] on a registered name is its number. *)
Definition getLevelName (n : LevelName) : Z :=
  match n with
  | L_DEBUG => DEBUG
  | L_INFO => INFO
  | L_WARNING => WARNING
  | L_ERROR => ERROR
  | L_CRITICAL => CRITICAL
  end.

Inductive FileMode := Append | Truncate.

(** Where a handler writes: a file opened in some mode ([FileHandler]) or
    the console ([StreamHandler()], i.e. [sys.stderr]). *)
Inductive Sink :=
| FileSink (path : string) (mode : FileMode)
| ConsoleSink.

Record Handler := mkHandler {
  h_sink : Sink;
  h_level : Z;
  h_format : string
}.

(** [FileHandler(path)] has mode 'a' by default; a fresh handler has level
    NOTSET and the default formatter, "%(message)s". *)
Definition default_format : string := "%(message)s".

Definition FileHandler (path : string) (mode : FileMode) : Handler :=
  mkHandler (FileSink path mode) NOTSET default_format.

Definition StreamHandler : Handler :=
  mkHandler ConsoleSink NOTSET default_format.

Definition setLevel (lvl : Z) (h : Handler) : Handler :=
  mkHandler (h_sink h) lvl (h_format h).

Definition setFormatter (fmt : string) (h : Handler) : Handler :=
  mkHandler (h_sink h) (h_level h) fmt.

(** The two loggers the middleware touches: the root logger and
    [getLogger("profile")], a child of the root. *)
Inductive Logger := RootLogger | ProfileLogger.

(** One line written by a handler: the sink, the handler's line format,
    and the record's level and message.  The time stamp substituted for
    [%(asctime)s] is left out. *)
Record Written := mkWritten {
  w_sink : Sink;
  w_format : string;
  w_levelno : Z;
  w_message : string
}.

(** The state of the logging module. *)
Record State := mkState {
  root_level : Z;
  root_handlers : list Handler;
  profile_level : Z;
  profile_handlers : list Handler;
  opened : list (string * FileMode);
  written : list Written
}.

(** A process that has not configured logging: the root logger is at
    WARNING, every other logger at NOTSET, no handler anywhere. *)
Definition initial : State :=
  mkState WARNING [] NOTSET [] [] [].

Definition sink_opens (s : Sink) : list (string * FileMode) :=
  match s with
  | FileSink p m => [(p, m)]
  | ConsoleSink => []
  end.

(** [logger.addHandler(h)]; the file of a [FileHandler] was opened (and so
    created) when the handler was constructed, which the model records at
    the same moment. *)
Definition addHandler (lg : Logger) (h : Handler) (st : State) : State :=
  match lg with
  | RootLogger =>
      mkState (root_level st) (root_handlers st ++ [h]) (profile_level st)
              (profile_handlers st) (opened st ++ sink_opens (h_sink h))
              (written st)
  | ProfileLogger =>
      mkState (root_level st) (root_handlers st) (profile_level st)
              (profile_handlers st ++ [h]) (opened st ++ sink_opens (h_sink h))
              (written st)
  end.

Definition set_root_level (lvl : Z) (st : State) : State :=
  mkState lvl (root_handlers st) (profile_level st) (profile_handlers st)
          (opened st) (written st).

(** [logging.basicConfig(level, format, filename, filemode)]: does nothing
    when the root logger already has a handler; otherwise adds a file
    handler with the format and sets the root logger's level. *)
Definition basicConfig (level : Z) (format filename : string)
           (filemode : FileMode) (st : State) : State :=
  match root_handlers st with
  | [] =>
      let hdlr := setFormatter format (FileHandler filename filemode) in
      set_root_level level (addHandler RootLogger hdlr st)
  | _ :: _ => st
  end.

(** [Logger.getEffectiveLevel]: the first level other than NOTSET on the
    way up to the root. *)
Definition getEffectiveLevel (lg : Logger) (st : State) : Z :=
  match lg with
  | RootLogger => root_level st
  | ProfileLogger =>
      if profile_level st =? NOTSET then root_level st else profile_level st
  end.

(** [Logger.isEnabledFor]; the threshold of [logging.disable], which the
    middleware never calls, stays at 0 and is left out. *)
Definition isEnabledFor (lg : Logger) (lvl : Z) (st : State) : bool :=
  getEffectiveLevel lg st <=? lvl.

(** [Logger.callHandlers]: the logger's own handlers, then (both loggers
    propagate) those of its ancestors. *)
Definition handlers_for (lg : Logger) (st : State) : list Handler :=
  match lg with
  | RootLogger => root_handlers st
  | ProfileLogger => profile_handlers st ++ root_handlers st
  end.

(** [Handler.handle] after the level check of [callHandlers]. *)
Definition handle (lvl : Z) (msg : string) (h : Handler) : list Written :=
  if h_level h <=? lvl then [mkWritten (h_sink h) (h_format h) lvl msg]
  else [].

Definition emit (lg : Logger) (lvl : Z) (msg : string) (st : State)
  : list Written :=
  if isEnabledFor lg lvl st then flat_map (handle lvl msg) (handlers_for lg st)
  else [].

(** [logger.log(level, msg)] with the message already formatted. *)
Definition log (lg : Logger) (lvl : Z) (msg : string) (st : State) : State :=
  mkState (root_level st) (root_handlers st) (profile_level st)
          (profile_handlers st) (opened st)
          (written st ++ emit lg lvl msg st).

(** Module-level [logging.info(msg)]: calls [basicConfig()] without
    arguments when the root logger has no handler (a console handler with
    the basic format), then logs on the root logger. *)
Definition BASIC_FORMAT : string := "%(levelname)s:%(name)s:%(message)s".

Definition info (msg : string) (st : State) : State :=
  let st1 :=
    match root_handlers st with
    | [] => addHandler RootLogger (setFormatter BASIC_FORMAT StreamHandler) st
    | _ :: _ => st
    end in
  log RootLogger INFO msg st1.

End logging.

(** ** Exceptions *)

(** The exceptions that can leave a hook. *)
Inductive Exn :=
| AttributeError (object attribute : string)
| TypeError (message : string)
| KeyError (key : string)
| ViewException (name : string).

(** A value returned, or an exception raised. *)
Inductive Result (A : Type) :=
| Ok (a : A)
| Raise (e : Exn).
Arguments Ok {A} a.
Arguments Raise {A} e.

(** ** cProfile and pstats *)

Module cProfile.

(** One line of profiler statistics: a function (its name as pstats shows
    it after [strip_dirs]), its number of calls, the time spent in the
    function itself and the time spent in it and its callees.  Times are
    whole milliseconds, the resolution of the printed report. *)
Record StatRow := mkRow {
  fn_name : string;
  ncalls : Z;
  tottime : Z;
  cumtime : Z
}.

(** A [cProfile.Profile] object: what it has collected while enabled, and
    the snapshot taken by [create_stats]. *)
Record Profile := mkProfile {
  collected : list StatRow;
  stats : option (list StatRow)
}.

(** [cProfile.Profile()] *)
Definition new : Profile := mkProfile [] None.

(** The profiler's own [disable], which [runcall] calls in its [finally]
    while the profiler is still on: it is in the statistics of every call
    that ran. *)
Definition disable_row : StatRow :=
  mkRow "{method 'disable' of '_lsprof.Profiler' objects}" 1 0 0.

(** What the profiler adds while a call runs under [runcall]: the
    functions seen during the call, then its own [disable]. *)
Definition record_call (observed : list StatRow) (p : Profile) : Profile :=
  mkProfile (collected p ++ observed ++ [disable_row]) (stats p).

(** The parameters of [Profile.runcall(self, func, *args, **kw)] that a
    keyword argument of the profiled call can collide with. *)
Definition runcall_parameters : list string := ["self"; "func"].

(** Some keyword argument has the name of a parameter of [runcall]: the
    call [runcall(callback, *args, **kwargs)] then fails to bind its
    arguments, with a TypeError, before anything runs. *)
Definition binds_runcall_parameter {A : Type} (kwargs : list (string * A))
  : bool :=
  existsb (fun kv => existsb (String.eqb (fst kv)) runcall_parameters) kwargs.

Definition runcall_error : Exn :=
  TypeError "runcall() got multiple values for keyword argument".

(** [Profile.create_stats()]: disable, then snapshot. *)
Definition create_stats (p : Profile) : Profile :=
  mkProfile (collected p) (Some (collected p)).

(** The sort keys of [pstats.Stats.sort_stats]. *)
Inductive SortKey := stdname | calls | time | cumulative.

(** The integer arguments [sort_stats] accepts "to be compatible with the
    old profiler"; any other integer is a KeyError. *)
Definition sort_key_of_int (n : Z) : option SortKey :=
  match n with
  | -1 => Some stdname
  | 0 => Some calls
  | 1 => Some time
  | 2 => Some cumulative
  | _ => None
  end.

Definition sort_type (k : SortKey) : string :=
  match k with
  | stdname => "standard name"
  | calls => "call count"
  | time => "internal time"
  | cumulative => "cumulative time"
  end.

(** [before k a b]: [a] may stay in front of [b] under key [k] (names
    ascending, the numeric keys descending). *)
Definition before (k : SortKey) (a b : StatRow) : bool :=
  match k with
  | stdname => String.leb (fn_name a) (fn_name b)
  | calls => ncalls b <=? ncalls a
  | time => tottime b <=? tottime a
  | cumulative => cumtime b <=? cumtime a
  end.

(** Python's list sort is stable; so is this insertion sort. *)
Fixpoint insert (k : SortKey) (r : StatRow) (l : list StatRow) : list StatRow :=
  match l with
  | [] => [r]
  | x :: l' => if before k r x then r :: l else x :: insert k r l'
  end.

Definition sort_rows (k : SortKey) (l : list StatRow) : list StatRow :=
  fold_right (insert k) [] l.

Definition dec (z : Z) : string := NilZero.string_of_uint (N.to_uint (Z.to_N z)).

Fixpoint spaces (n : nat) : string :=
  match n with
  | O => ""
  | S n' => String " "%char (spaces n')
  end.

Definition rjust (width : nat) (s : string) : string :=
  spaces (width - String.length s) ++ s.

Definition zfill3 (s : string) : string :=
  match String.length s with
  | 0%nat => "000" ++ s
  | 1%nat => "00" ++ s
  | 2%nat => "0" ++ s
  | _ => s
  end.

(** ["%.3f" % seconds] for a time of [ms] whole milliseconds. *)
Definition f3 (ms : Z) : string := dec (ms / 1000) ++ "." ++ zfill3 (dec (ms mod 1000)).

(** pstats' [f8]: ["%8.3f"]. *)
Definition f8 (ms : Z) : string := rjust 8 (f3 ms).

Definition nl : string := String "010"%char "".

Definition sum_by (f : StatRow -> Z) (l : list StatRow) : Z :=
  fold_right (fun r acc => f r + acc) 0 l.

(** [Stats.print_line], without the two per-call columns (quotients of
    the columns kept). *)
Definition print_line (r : StatRow) : string :=
  rjust 9 (dec (ncalls r)) ++ " " ++ f8 (tottime r) ++ " " ++ f8 (cumtime r)
    ++ " " ++ fn_name r ++ nl.

Definition print_title : string :=
  "   ncalls  tottime  cumtime filename:lineno(function)" ++ nl.

(** [Stats.sort_stats(key).print_stats(amount)]: the totals, the sort
    order, then a line per function of the sorted list, cut to its first
    [n] entries when an amount [n] is given. *)
Definition report (k : SortKey) (amount : option nat) (l : list StatRow) : string :=
  let sorted := sort_rows k l in
  let shown := match amount with
               | Some n => firstn n sorted
               | None => sorted
               end in
  "         " ++ dec (sum_by ncalls l) ++ " function calls in "
    ++ f3 (sum_by tottime l) ++ " seconds" ++ nl ++ nl
    ++ "   Ordered by: " ++ sort_type k ++ nl ++ nl
    ++ match shown with
       | [] => ""
       | _ :: _ => print_title ++ concat "" (map print_line shown)
       end
    ++ nl ++ nl.

(** What [pstats.Stats(profile)] leaves of the profile: it calls
    [create_stats], takes the snapshot for itself and puts an empty one in
    its place. *)
Definition stats_taken (p : Profile) : Profile :=
  mkProfile (collected p) (Some []).

(** The profile has statistics of at least one function. *)
Definition has_stats (p : Profile) : bool :=
  match collected p with
  | [] => false
  | _ :: _ => true
  end.

Definition no_stats_error : Exn :=
  TypeError "Cannot create or construct a Stats object".

(** [Profile.print_stats(sort)], which is
    [pstats.Stats(self).strip_dirs().sort_stats(sort).print_stats()]:
    the argument is the sort key and no amount is given.  [pstats.Stats]
    raises TypeError for a profile without statistics, [sort_stats]
    KeyError for an integer that is no sort key; otherwise the result is
    the text printed. *)
Definition print_stats (sort : Z) (p : Profile) : Result string :=
  match collected p with
  | [] => Raise no_stats_error
  | _ :: _ =>
      match sort_key_of_int sort with
      | Some k => Ok (report k None (collected p))
      | None => Raise (KeyError (dec sort))
      end
  end.

End cProfile.

(** ** django.conf.settings and the request *)

(** The settings the middleware reads.  [None] is an attribute that is
    absent (or, for the directory and the name, set to None: [getattr] with
    the default None cannot tell the two apart).  [DEBUG] always exists in
    Django's settings. *)
Record Settings := mkSettings {
  LOGGING_ENABLED : option bool;
  LOGGING_DIRECTORY : option string;
  LOGGING_NAME : option string;
  LOGGING_ALLOW_PROFILING : option bool;
  LOGGING_LINE_FORMAT : option string;
  LOGGING_LEVEL : option logging.LevelName;
  DEBUG : bool
}.

(** [request.GET] holds the parameters of the query string, a key possibly
    several times; [request.path] and [request.method] are strings. *)
Record HttpRequest := mkRequest {
  GET : list (string * string);
  path : string;
  method : string
}.

(** [key in request.GET] *)
Definition in_GET (key : string) (request : HttpRequest) : bool :=
  existsb (fun kv => String.eqb (fst kv) key) (GET request).

(** ** The process state and the monad of the hooks *)

(** [sys.stdout]: the process's real standard output, or a [StringIO]
    buffer put in its place. *)
Inductive Stream :=
| Terminal
| StringIO (contents : string).

Definition getvalue (out : Stream) : string :=
  match out with
  | StringIO c => c
  | Terminal => ""
  end.

(** Everything the middleware reads and writes: the module globals
    [_logging_setup] and [_profile_log], the logging module, the
    [profiler] attribute of the middleware object ([None]: the attribute
    does not exist), [sys.stdout], and the text that reached the real
    standard output. *)
Record World := mkWorld {
  _logging_setup : bool;
  _profile_log : option logging.Logger;
  log_state : logging.State;
  self_profiler : option cProfile.Profile;
  sys_stdout : Stream;
  terminal : string
}.

(** The module as imported, in a process that has not touched logging. *)
Definition initial_world : World :=
  mkWorld false None logging.initial None Terminal "".

Definition M (A : Type) : Type := World -> Result A * World.

Definition ret {A : Type} (a : A) : M A := fun w => (Ok a, w).

Definition raise {A : Type} (e : Exn) : M A := fun w => (Raise e, w).

Definition bind {A B : Type} (m : M A) (k : A -> M B) : M B :=
  fun w =>
    match m w with
    | (Ok a, w') => k a w'
    | (Raise e, w') => (Raise e, w')
    end.

Declare Scope py_scope.
Delimit Scope py_scope with py.
Notation "x <- m ;; k" := (bind m (fun x => k))
  (at level 100, m at next level, right associativity) : py_scope.
Notation "m ;;; k" := (bind m (fun _ => k))
  (at level 100, right associativity) : py_scope.
Open Scope py_scope.

Definition get {A : Type} (proj : World -> A) : M A := fun w => (Ok (proj w), w).

Definition modify (f : World -> World) : M unit := fun w => (Ok tt, f w).

Definition set_logging_setup (b : bool) (w : World) : World :=
  mkWorld b (_profile_log w) (log_state w) (self_profiler w) (sys_stdout w)
          (terminal w).

Definition set_profile_log (l : option logging.Logger) (w : World) : World :=
  mkWorld (_logging_setup w) l (log_state w) (self_profiler w) (sys_stdout w)
          (terminal w).

Definition on_logging (f : logging.State -> logging.State) (w : World) : World :=
  mkWorld (_logging_setup w) (_profile_log w) (f (log_state w))
          (self_profiler w) (sys_stdout w) (terminal w).

Definition set_profiler (p : option cProfile.Profile) (w : World) : World :=
  mkWorld (_logging_setup w) (_profile_log w) (log_state w) p (sys_stdout w)
          (terminal w).

Definition set_stdout (s : Stream) (w : World) : World :=
  mkWorld (_logging_setup w) (_profile_log w) (log_state w) (self_profiler w)
          s (terminal w).

(** [print] to whatever [sys.stdout] is at the moment. *)
Definition print (text : string) (w : World) : World :=
  match sys_stdout w with
  | Terminal =>
      mkWorld (_logging_setup w) (_profile_log w) (log_state w)
              (self_profiler w) Terminal (terminal w ++ text)
  | StringIO c => set_stdout (StringIO (c ++ text)) w
  end.

(** ** Views *)

(** What calling a view gives: the value it returns ([None] is Python's
    None) or the exception it raises, and the statistics a profiler
    enabled around the call sees. *)
Record ViewRun (R : Type) := mkRun {
  vr_outcome : Result (option R);
  vr_observed : list cProfile.StatRow
}.
Arguments mkRun {R} _ _.
Arguments vr_outcome {R} _.
Arguments vr_observed {R} _.

(** A view callable: [callback(request, *callback_args, **callback_kwargs)]. *)
Definition View (A R : Type) : Type :=
  HttpRequest -> list A -> list (string * A) -> ViewRun R.

(** Calling the view directly, as the framework does when no middleware
    overrides it. *)
Definition call_view {A R : Type} (callback : View A R) (request : HttpRequest)
           (callback_args : list A) (callback_kwargs : list (string * A))
  : Result (option R) :=
  vr_outcome (callback request callback_args callback_kwargs).

(** ** Methods of the profiler attribute *)

(** [self.profiler.runcall(callback, request, *callback_args,
    **callback_kwargs)]: when a keyword argument has the name of one of
    [runcall]'s own parameters the call fails with a TypeError and the
    view does not run; otherwise the view runs with the profiler enabled
    and its value or exception is passed on (the profiler is disabled in a
    [finally]). *)
Definition profiler_runcall {A R : Type} (callback : View A R)
           (request : HttpRequest) (callback_args : list A)
           (callback_kwargs : list (string * A)) : M (option R) :=
  fun w =>
    match self_profiler w with
    | Some p =>
        if cProfile.binds_runcall_parameter callback_kwargs
        then (Raise cProfile.runcall_error, w)
        else
          let run := callback request callback_args callback_kwargs in
          (vr_outcome run,
           set_profiler (Some (cProfile.record_call (vr_observed run) p)) w)
    | None => (Raise (AttributeError "LoggingMiddleware" "profiler"), w)
    end.

(** [self.profiler.create_stats()] *)
Definition profiler_create_stats : M unit :=
  fun w =>
    match self_profiler w with
    | Some p => (Ok tt, set_profiler (Some (cProfile.create_stats p)) w)
    | None => (Raise (AttributeError "LoggingMiddleware" "profiler"), w)
    end.

(** [self.profiler.print_stats(sort)]: prints the report on [sys.stdout],
    or raises what [print_stats] raises. *)
Definition profiler_print_stats (sort : Z) : M unit :=
  fun w =>
    match self_profiler w with
    | Some p =>
        let w' := set_profiler (Some (cProfile.stats_taken p)) w in
        match cProfile.print_stats sort p with
        | Ok text => (Ok tt, print text w')
        | Raise e => (Raise e, w')
        end
    | None => (Raise (AttributeError "LoggingMiddleware" "profiler"), w)
    end.

(** [_profile_log.log(level, msg)]: an AttributeError while the global is
    still None. *)
Definition profile_log_log (lvl : Z) (msg : string) : M unit :=
  fun w =>
    match _profile_log w with
    | Some lg => (Ok tt, on_logging (logging.log lg lvl msg) w)
    | None => (Raise (AttributeError "NoneType" "log"), w)
    end.

(** ** class LoggingMiddleware *)

Module LoggingMiddleware.

Definition DEFAULT_LOG_LEVEL : logging.LevelName := logging.L_DEBUG.
Definition DEFAULT_LINE_FORMAT : string :=
  "%(asctime)s - %(levelname)s - %(message)s".

(** The string behind a directory or name that passed the truth test. *)
Definition str_of (o : option string) : string := getattr o "".

(** The test both [process_view] and [process_response] make. *)
Definition profiling_requested (settings : Settings) (request : HttpRequest)
  : bool :=
  in_GET "profiling" request
  && getattr (LOGGING_ALLOW_PROFILING settings) false.

(** The handler [ensure_loggers] adds to the root logger in DEBUG mode. *)
Definition console_log (log_level : Z) (format_str : string) : logging.Handler :=
  logging.setFormatter format_str
    (logging.setLevel log_level logging.StreamHandler).

(** [ensure_loggers(self)] *)
Definition ensure_loggers (settings : Settings) : M unit :=
  setup <- get _logging_setup ;;
  if setup : bool then ret tt
  else
    let enabled := getattr (LOGGING_ENABLED settings) false in
    let log_directory := LOGGING_DIRECTORY settings in
    let log_name := LOGGING_NAME settings in
    if negb enabled || negb (truthy_str log_directory)
       || negb (truthy_str log_name)
    then ret tt
    else
      let log_level_name :=
        getattr (LOGGING_LEVEL settings) DEFAULT_LOG_LEVEL in
      let log_level := logging.getLevelName log_level_name in
      let format_str :=
        getattr (LOGGING_LINE_FORMAT settings) DEFAULT_LINE_FORMAT in
      let log_path :=
        os_path.join (str_of log_directory) (str_of log_name ++ ".log") in
      modify (on_logging
                (logging.basicConfig log_level format_str log_path
                                     logging.Append)) ;;;
      (if DEBUG settings
       then modify (on_logging
                      (logging.addHandler logging.RootLogger
                                          (console_log log_level format_str)))
       else ret tt) ;;;
      modify (on_logging
                (logging.info
                   ("Logging to " ++ log_path ++ " with a minimum level of "
                      ++ logging.level_name_str log_level_name))) ;;;
      modify (set_logging_setup true).

(** The handler [ensure_profile_logger] builds. *)
Definition profile_handler (log_directory log_name : string) : logging.Handler :=
  logging.setFormatter "%(asctime)s %(message)s"
    (logging.setLevel logging.INFO
       (logging.FileHandler (os_path.join log_directory (log_name ++ ".prof"))
                            logging.Append)).

Definition is_set {A : Type} (o : option A) : bool :=
  match o with
  | Some _ => true
  | None => false
  end.

(** [ensure_profile_logger(self)] *)
Definition ensure_profile_logger (settings : Settings) : M unit :=
  let enabled := getattr (LOGGING_ENABLED settings) false in
  let log_directory := LOGGING_DIRECTORY settings in
  let log_name := LOGGING_NAME settings in
  current <- get _profile_log ;;
  if enabled && truthy_str log_directory && truthy_str log_name
     && negb (is_set current)
     && getattr (LOGGING_ALLOW_PROFILING settings) false
  then
    let handler := profile_handler (str_of log_directory) (str_of log_name) in
    modify (set_profile_log (Some logging.ProfileLogger)) ;;;
    modify (on_logging (logging.addHandler logging.ProfileLogger handler))
  else ret tt.

(** [process_request(self, request)] *)
Definition process_request (settings : Settings) (request : HttpRequest)
  : M unit :=
  ensure_loggers settings.

(** [process_view(self, request, callback, callback_args, callback_kwargs)]:
    what [runcall] returns, or the implicit [return None].  A result of
    [None], from either, lets the framework call the view itself. *)
Definition process_view {A R : Type} (settings : Settings)
           (request : HttpRequest) (callback : View A R)
           (callback_args : list A) (callback_kwargs : list (string * A))
  : M (option R) :=
  if profiling_requested settings request
  then
    modify (set_profiler (Some cProfile.new)) ;;;
    profiler_runcall callback request callback_args callback_kwargs
  else ret None.

(** The first record [process_response] logs. *)
Definition header_line (request : HttpRequest) : string :=
  "Profiling results for " ++ path request ++ " (HTTP " ++ method request
    ++ "):".

(** [process_response(self, request, response)] *)
Definition process_response {Resp : Type} (settings : Settings)
           (request : HttpRequest) (response : Resp) : M Resp :=
  (if profiling_requested settings request
   then
     ensure_profile_logger settings ;;;
     profiler_create_stats ;;;
     old_stdout <- get sys_stdout ;;
     modify (set_stdout (StringIO "")) ;;;
     profiler_print_stats 1 ;;;
     out <- get sys_stdout ;;
     modify (set_stdout old_stdout) ;;;
     profile_log_log logging.INFO (header_line request) ;;;
     profile_log_log logging.INFO (strip (getvalue out))
   else ret tt) ;;;
  ret response.

End LoggingMiddleware.

Import LoggingMiddleware.

(** ** The hooks as the framework calls them *)

(** One invocation of a hook by the framework.  A hook that raises makes
    the framework answer with an error page; the process, and with it the
    state the hook left behind, lives on. *)
Inductive Call (A R : Type) :=
| CallProcessRequest (request : HttpRequest)
| CallProcessView (request : HttpRequest) (callback : View A R)
                  (callback_args : list A) (callback_kwargs : list (string * A))
| CallProcessResponse (request : HttpRequest).
Arguments CallProcessRequest {A R} _.
Arguments CallProcessView {A R} _ _ _ _.
Arguments CallProcessResponse {A R} _.

Definition step {A R : Type} (settings : Settings) (c : Call A R) (w : World)
  : World :=
  match c with
  | CallProcessRequest request => snd (process_request settings request w)
  | CallProcessView request callback args kwargs =>
      snd (process_view settings request callback args kwargs w)
  | CallProcessResponse request => snd (process_response settings request tt w)
  end.

Definition run {A R : Type} (settings : Settings) (cs : list (Call A R))
           (w : World) : World :=
  fold_left (fun w c => step settings c w) cs w.

(** [n] requests in a row, each starting with [process_request]. *)
Fixpoint repeat_ensure_loggers (settings : Settings) (n : nat) (w : World)
  : World :=
  match n with
  | O => w
  | S n' => repeat_ensure_loggers settings n' (snd (ensure_loggers settings w))
  end.

(** The same, with the settings in force at each call given with it (a
    process whose configuration changes while it runs). *)
Definition run_each {A R : Type} (cs : list (Settings * Call A R)) (w : World)
  : World :=
  fold_left (fun w sc => step (fst sc) (snd sc) w) cs w.

(** ** Vocabulary of the properties *)

(** The general logging configuration is complete: the condition under
    which line 136 of the source does not return. *)
Definition valid_config (settings : Settings) : bool :=
  getattr (LOGGING_ENABLED settings) false
  && truthy_str (LOGGING_DIRECTORY settings)
  && truthy_str (LOGGING_NAME settings).

Definition log_path (settings : Settings) : string :=
  os_path.join (str_of (LOGGING_DIRECTORY settings))
               (str_of (LOGGING_NAME settings) ++ ".log").

Definition prof_path (settings : Settings) : string :=
  os_path.join (str_of (LOGGING_DIRECTORY settings))
               (str_of (LOGGING_NAME settings) ++ ".prof").

Definition log_level (settings : Settings) : Z :=
  logging.getLevelName (getattr (LOGGING_LEVEL settings) DEFAULT_LOG_LEVEL).

Definition format_str (settings : Settings) : string :=
  getattr (LOGGING_LINE_FORMAT settings) DEFAULT_LINE_FORMAT.

(** The handler of the general log file, as [basicConfig] builds it. *)
Definition file_log (settings : Settings) : logging.Handler :=
  logging.mkHandler (logging.FileSink (log_path settings) logging.Append)
                    logging.NOTSET (format_str settings).

Definition mode_eqb (a b : logging.FileMode) : bool :=
  match a, b with
  | logging.Append, logging.Append => true
  | logging.Truncate, logging.Truncate => true
  | _, _ => false
  end.

Definition sink_eqb (a b : logging.Sink) : bool :=
  match a, b with
  | logging.FileSink p m, logging.FileSink q n => String.eqb p q && mode_eqb m n
  | logging.ConsoleSink, logging.ConsoleSink => true
  | _, _ => false
  end.

Definition is_console (h : logging.Handler) : bool :=
  sink_eqb (logging.h_sink h) logging.ConsoleSink.

(** The lines written between two states of the process. *)
Definition new_written (before after : World) : list logging.Written :=
  skipn (List.length (logging.written (log_state before)))
        (logging.written (log_state after)).

(** The messages among some written lines that went to one sink. *)
Definition messages_to (sink : logging.Sink) (ws : list logging.Written)
  : list string :=
  map logging.w_message
      (filter (fun x => sink_eqb (logging.w_sink x) sink) ws).

(** The root logger has no handler yet: the case in which [basicConfig]
    acts. *)
Definition root_is_bare (w : World) : bool :=
  match logging.root_handlers (log_state w) with
  | [] => true
  | _ :: _ => false
  end.

(** No handler of the root logger writes to the sink. *)
Definition root_avoids (sink : logging.Sink) (w : World) : bool :=
  forallb (fun h => negb (sink_eqb (logging.h_sink h) sink))
          (logging.root_handlers (log_state w)).

(** "The top-1 cumulative-time summary", as the specification words it:
    the statistics sorted by cumulative time and cut to the first entry.
    This definition follows the specification, not the source. *)
Definition spec_top1_cumulative_summary (rows : list cProfile.StatRow) : string :=
  strip (cProfile.report cProfile.cumulative (Some 1%nat) rows).

(** What the source logs as the statistics: [print_stats(1)], captured and
    stripped. *)
Definition stats_body (p : cProfile.Profile) : string :=
  strip (cProfile.report cProfile.time None (cProfile.collected p)).

(** ** Auxiliary definitions *)

(** The guard of [ensure_profile_logger] (line 176 of the source). *)
Definition profile_logger_wanted (settings : Settings) (w : World) : bool :=
  valid_config settings
  && negb (is_set (_profile_log w))
  && getattr (LOGGING_ALLOW_PROFILING settings) false.

(** The world once the profiling sink has been created. *)
Definition with_profile_logger (settings : Settings) (w : World) : World :=
  on_logging
    (logging.addHandler logging.ProfileLogger
       (profile_handler (str_of (LOGGING_DIRECTORY settings))
                        (str_of (LOGGING_NAME settings))))
    (set_profile_log (Some logging.ProfileLogger) w).

(** The part of the world on which the claims about set-up bear:
    the two globals and the handlers, levels and opened files of the
    logging module. *)
Record Setup := mkSetup {
  su_setup : bool;
  su_profile_log : option logging.Logger;
  su_root_level : Z;
  su_root_handlers : list logging.Handler;
  su_profile_level : Z;
  su_profile_handlers : list logging.Handler;
  su_opened : list (string * logging.FileMode)
}.

Definition setup_of (w : World) : Setup :=
  mkSetup (_logging_setup w) (_profile_log w)
          (logging.root_level (log_state w))
          (logging.root_handlers (log_state w))
          (logging.profile_level (log_state w))
          (logging.profile_handlers (log_state w))
          (logging.opened (log_state w)).

(** The profiling side of the process: no sink yet and the handlers the
    profile logger started with, or a sink and exactly one handler more. *)
Definition sink_invariant (w0 w : World) : Prop :=
  (_profile_log w = None
   /\ logging.profile_handlers (log_state w)
      = logging.profile_handlers (log_state w0))
  \/ (_profile_log w = Some logging.ProfileLogger
      /\ exists h, logging.profile_handlers (log_state w)
                   = (logging.profile_handlers (log_state w0) ++ [h])%list).

(** The files opened for logging, against the two globals: the general
    log file is there exactly when the flag is set, the profile file
    exactly when the sink exists, and nothing else is. *)
Definition files_invariant (settings : Settings) (u : Setup) : Prop :=
  let L := (log_path settings, logging.Append) in
  let P := (prof_path settings, logging.Append) in
  (su_setup u = false -> su_root_handlers u = [])
  /\ ((su_setup u = false /\ su_profile_log u = None /\ su_opened u = [])
      \/ (su_setup u = true /\ su_profile_log u = None /\ su_opened u = [L])
      \/ (su_setup u = false /\ su_profile_log u <> None /\ su_opened u = [P])
      \/ (su_setup u = true /\ su_profile_log u <> None
          /\ (su_opened u = [L; P] \/ su_opened u = [P; L]))).

(** [self.profiler] exists but holds no statistics: the state in which
    [print_stats] raises. *)
Definition stats_missing (w : World) : bool :=
  match self_profiler w with
  | Some p => negb (cProfile.has_stats p)
  | None => false
  end.

(** The profiler [process_view] leaves in [self.profiler]. *)
Definition profiler_after {R : Type} (run : ViewRun R) : cProfile.Profile :=
  cProfile.record_call (vr_observed run) cProfile.new.

Arguments cProfile.print_stats : simpl never.
Arguments cProfile.binds_runcall_parameter : simpl never.

Ltac unfold_hooks :=
  unfold process_request, process_view, process_response,
    profiler_runcall, profiler_create_stats, profiler_print_stats,
    profile_log_log, bind, get, modify, ret, raise in *.

Ltac case_world :=
  repeat (simpl in *;
          match goal with
          | |- context [match self_profiler ?w with _ => _ end] =>
              destruct (self_profiler w) eqn:?
          | |- context [match _profile_log ?w with _ => _ end] =>
              destruct (_profile_log w) eqn:?
          | |- context [match cProfile.print_stats ?n ?p with _ => _ end] =>
              destruct (cProfile.print_stats n p) eqn:?
          | |- context [if cProfile.binds_runcall_parameter ?k then _ else _] =>
              destruct (cProfile.binds_runcall_parameter k) eqn:?
          | |- context [if profile_logger_wanted ?s ?w then _ else _] =>
              destruct (profile_logger_wanted s w) eqn:?
          | |- context [if profiling_requested ?s ?r then _ else _] =>
              destruct (profiling_requested s r) eqn:?
          end).

(** ** Running examples *)

(** A complete configuration that allows profiling; level and line format
    are left to their defaults. *)
Definition example_settings : Settings :=
  mkSettings (Some true) (Some "/var/log") (Some "site") (Some true)
             None None false.

(** Profiling allowed, general logging not configured at all. *)
Definition disabled_settings : Settings :=
  mkSettings None None None (Some true) None None false.

(** As [example_settings], with LOGGING_LEVEL = "WARNING". *)
Definition warning_settings : Settings :=
  mkSettings (Some true) (Some "/var/log") (Some "site") (Some true)
             None (Some logging.L_WARNING) false.

(** As [warning_settings], in DEBUG mode. *)
Definition debug_warning_settings : Settings :=
  mkSettings (Some true) (Some "/var/log") (Some "site") (Some true)
             None (Some logging.L_WARNING) true.

(** A process in which the profile logger, a child of the root logger,
    has been put at level DEBUG by some other component. *)
Definition child_debug_world : World :=
  mkWorld false None
          (logging.mkState logging.WARNING [] logging.DEBUG [] [] [])
          None Terminal "".

(** A process in which some other component has already given the root
    logger a console handler. *)
Definition preconfigured_world : World :=
  on_logging (logging.addHandler logging.RootLogger logging.StreamHandler)
             initial_world.

(** GET /home/?profiling=1 *)
Definition profiled_request : HttpRequest :=
  mkRequest [("profiling", "1")] "/home/" "GET".

(** GET /home/ *)
Definition plain_request : HttpRequest := mkRequest [] "/home/" "GET".

(** A view that returns "body"; under a profiler, two functions are seen:
    the view itself (5 ms of its own, 1200 ms with its callees) and a
    query function called three times (1100 ms). *)
Definition example_view : View Z string :=
  fun _ _ _ =>
    mkRun (Ok (Some "body"))
          [cProfile.mkRow "views.py:3(index)" 1 5 1200;
           cProfile.mkRow "db.py:9(query)" 3 1100 1100].

(** The three hooks of one request, in the framework's order. *)
Definition example_calls (request : HttpRequest) : list (Call Z string) :=
  [CallProcessRequest request;
   CallProcessView request example_view [] [];
   CallProcessResponse request].

(** The world in which a profiled view has just run. *)
Definition after_view (settings : Settings) (request : HttpRequest) : World :=
  run settings
      [CallProcessRequest request; CallProcessView request example_view [] []]
      initial_world.

(** The world of a profiled request just before [process_response], the
    profiling sink already there. *)
Definition profiled_world (settings : Settings) : World :=
  snd (ensure_profile_logger settings (after_view settings profiled_request)).

(** The messages [process_response] adds to /var/log/site.prof. *)
Definition prof_messages (settings : Settings) : list string :=
  messages_to
    (logging.FileSink "/var/log/site.prof" logging.Append)
    (new_written
       (profiled_world settings)
       (snd (process_response settings profiled_request "response"
                              (profiled_world settings)))).

(** ** Equations of [ensure_loggers] *)

Lemma ensure_loggers_done (settings : Settings) (w : World) :
  _logging_setup w = true -> ensure_loggers settings w = (Ok tt, w).
Proof.
  intros H. unfold ensure_loggers, bind, get. rewrite H. reflexivity.
Qed.

Lemma ensure_loggers_skip (settings : Settings) (w : World) :
  valid_config settings = false -> ensure_loggers settings w = (Ok tt, w).
Proof.
  unfold valid_config, ensure_loggers, bind, get. intros H.
  destruct (_logging_setup w); [reflexivity|].
  destruct (getattr (LOGGING_ENABLED settings) false),
    (truthy_str (LOGGING_DIRECTORY settings)),
    (truthy_str (LOGGING_NAME settings)); simpl in *;
    try discriminate; reflexivity.
Qed.

(** The state a successful set-up leaves behind. *)
Lemma ensure_loggers_setup (settings : Settings) (w : World) :
  valid_config settings = true -> _logging_setup w = false ->
  exists st,
    ensure_loggers settings w
    = (Ok tt, mkWorld true (_profile_log w) st (self_profiler w)
                      (sys_stdout w) (terminal w))
    /\ logging.root_handlers st
       = (logging.root_handlers
            (logging.basicConfig (log_level settings) (format_str settings)
                                 (log_path settings) logging.Append (log_state w))
          ++ (if DEBUG settings
              then [console_log (log_level settings) (format_str settings)]
              else []))%list
    /\ logging.profile_handlers st = logging.profile_handlers (log_state w)
    /\ logging.root_level st
       = logging.root_level
           (logging.basicConfig (log_level settings) (format_str settings)
                                (log_path settings) logging.Append (log_state w)).
Proof.
  unfold valid_config. intros Hv Hs.
  apply andb_true_iff in Hv as [Hv Hn]. apply andb_true_iff in Hv as [He Hd].
  unfold ensure_loggers, bind, get, modify, ret. rewrite Hs, He, Hd, Hn. simpl.
  fold (log_level settings) (format_str settings) (log_path settings).
  destruct (DEBUG settings); simpl; eexists; (split; [reflexivity|]);
    unfold logging.basicConfig;
    destruct (logging.root_handlers (log_state w)) eqn:E; simpl;
    rewrite ?E; simpl; rewrite ?app_nil_r; auto.
Qed.

(** ** What each hook can change *)

Lemma ensure_profile_logger_eq (settings : Settings) (w : World) :
  ensure_profile_logger settings w
  = (Ok tt, if profile_logger_wanted settings w
            then with_profile_logger settings w else w).
Proof.
  unfold ensure_profile_logger, profile_logger_wanted, valid_config, bind, get.
  destruct (getattr (LOGGING_ENABLED settings) false
            && truthy_str (LOGGING_DIRECTORY settings)
            && truthy_str (LOGGING_NAME settings)
            && negb (is_set (_profile_log w))
            && getattr (LOGGING_ALLOW_PROFILING settings) false); reflexivity.
Qed.

(** [process_view] touches nothing but the profiler attribute. *)
Lemma process_view_setup {A R : Type} (settings : Settings)
      (request : HttpRequest) (callback : View A R) (args : list A)
      (kwargs : list (string * A)) (w : World) :
  setup_of (snd (process_view settings request callback args kwargs w))
  = setup_of w.
Proof.
  unfold_hooks. case_world; reflexivity.
Qed.

(** [process_response] changes the set-up only through
    [ensure_profile_logger]. *)
Lemma process_response_setup {Resp : Type} (settings : Settings)
      (request : HttpRequest) (response : Resp) (w : World) :
  setup_of (snd (process_response settings request response w))
  = setup_of (if profiling_requested settings request
                 && profile_logger_wanted settings w
              then with_profile_logger settings w else w).
Proof.
  unfold process_response.
  destruct (profiling_requested settings request); [|reflexivity].
  unfold_hooks. rewrite ensure_profile_logger_eq.
  case_world; reflexivity.
Qed.

Lemma valid_config_cases (settings : Settings) :
  valid_config settings = false <->
  getattr (LOGGING_ENABLED settings) false = false
  \/ truthy_str (LOGGING_DIRECTORY settings) = false
  \/ truthy_str (LOGGING_NAME settings) = false.
Proof.
  unfold valid_config.
  destruct (getattr (LOGGING_ENABLED settings) false),
    (truthy_str (LOGGING_DIRECTORY settings)),
    (truthy_str (LOGGING_NAME settings)); simpl; intuition congruence.
Qed.

(** [ensure_loggers] never raises and leaves the profiling side alone. *)
Lemma ensure_loggers_profile (settings : Settings) (w : World) :
  fst (ensure_loggers settings w) = Ok tt
  /\ _profile_log (snd (ensure_loggers settings w)) = _profile_log w
  /\ logging.profile_handlers (log_state (snd (ensure_loggers settings w)))
     = logging.profile_handlers (log_state w).
Proof.
  destruct (_logging_setup w) eqn:Hs.
  - rewrite ensure_loggers_done by assumption. auto.
  - destruct (valid_config settings) eqn:Hv.
    + destruct (ensure_loggers_setup settings w Hv Hs) as (st & -> & _ & Hp & _).
      simpl. auto.
    + rewrite ensure_loggers_skip by assumption. auto.
Qed.

(** Under an incomplete configuration no hook changes the set-up. *)
Lemma step_invalid {A R : Type} (settings : Settings) (c : Call A R) (w : World) :
  valid_config settings = false -> setup_of (step settings c w) = setup_of w.
Proof.
  intros Hv. destruct c; simpl.
  - unfold process_request. rewrite ensure_loggers_skip by assumption. reflexivity.
  - apply process_view_setup.
  - rewrite process_response_setup. unfold profile_logger_wanted.
    rewrite Hv, andb_false_r. reflexivity.
Qed.

Lemma run_invalid {A R : Type} (settings : Settings) (cs : list (Call A R)) :
  valid_config settings = false ->
  forall w, setup_of (run settings cs w) = setup_of w.
Proof.
  intros Hv. induction cs as [|c cs IH]; intros w; [reflexivity|].
  unfold run in *. simpl. rewrite IH. apply step_invalid, Hv.
Qed.

(** Once the flag is set, no hook touches the root logger, whatever the
    settings. *)
Lemma step_after_setup {A R : Type} (settings : Settings) (c : Call A R)
      (w : World) :
  _logging_setup w = true ->
  _logging_setup (step settings c w) = true
  /\ logging.root_handlers (log_state (step settings c w))
     = logging.root_handlers (log_state w)
  /\ logging.root_level (log_state (step settings c w))
     = logging.root_level (log_state w).
Proof.
  intros Hs. destruct c; simpl.
  - unfold process_request. rewrite ensure_loggers_done by assumption. auto.
  - pose proof (process_view_setup settings request callback callback_args
                                   callback_kwargs w) as E.
    injection E as E1 _ E3 E4 _ _ _. rewrite E1, E3, E4. auto.
  - pose proof (process_response_setup settings request tt w) as E.
    destruct (profiling_requested settings request
              && profile_logger_wanted settings w);
      injection E as E1 _ E3 E4 _ _ _; rewrite E1, E3, E4; auto.
Qed.

Lemma run_after_setup {A R : Type} (settings : Settings) (cs : list (Call A R)) :
  forall w,
    _logging_setup w = true ->
    _logging_setup (run settings cs w) = true
    /\ logging.root_handlers (log_state (run settings cs w))
       = logging.root_handlers (log_state w)
    /\ logging.root_level (log_state (run settings cs w))
       = logging.root_level (log_state w).
Proof.
  induction cs as [|c cs IH]; intros w Hs; [auto|].
  destruct (step_after_setup settings c w Hs) as (H1 & H2 & H3).
  destruct (IH _ H1) as (I1 & I2 & I3).
  unfold run in *. simpl. rewrite I2, I3. auto.
Qed.

(** Everything the first set-up does to the set-up state, whatever the
    root logger had before. *)
Lemma ensure_loggers_effect (settings : Settings) (w : World) :
  valid_config settings = true -> _logging_setup w = false ->
  fst (ensure_loggers settings w) = Ok tt
  /\ _logging_setup (snd (ensure_loggers settings w)) = true
  /\ logging.root_handlers (log_state (snd (ensure_loggers settings w)))
     = (logging.root_handlers (log_state w)
        ++ (if root_is_bare w then [file_log settings] else [])
        ++ (if DEBUG settings
            then [console_log (log_level settings) (format_str settings)]
            else []))%list
  /\ logging.root_level (log_state (snd (ensure_loggers settings w)))
     = (if root_is_bare w then log_level settings
        else logging.root_level (log_state w))
  /\ logging.opened (log_state (snd (ensure_loggers settings w)))
     = (logging.opened (log_state w)
        ++ (if root_is_bare w then [(log_path settings, logging.Append)]
            else []))%list.
Proof.
  intros Hv Hs. unfold valid_config in Hv.
  apply andb_true_iff in Hv as [Hv Hn]. apply andb_true_iff in Hv as [He Hd].
  unfold ensure_loggers, bind, get, modify, ret, root_is_bare.
  rewrite Hs, He, Hd, Hn. simpl.
  fold (log_level settings) (format_str settings) (log_path settings).
  unfold on_logging, logging.info, logging.basicConfig. cbn [log_state].
  destruct (logging.root_handlers (log_state w)) as [|h hs] eqn:Hr;
    destruct (DEBUG settings); cbn; rewrite ?Hr; cbn;
    rewrite ?app_nil_r; auto.
Qed.

(** ** The claims *)

(** C5.  When LOGGING_ENABLED is false (or absent), or the directory or the
    name is unset (or empty), [ensure_loggers] returns normally and leaves
    the whole world as it was; and after any sequence of hook calls under
    such settings the initialized flag, the handlers of both loggers and the
    list of files opened for logging are what they were: no set-up is done
    and no log file is created. *)
Theorem ensure_loggers_skips_when_not_configured
        {A R : Type} (settings : Settings) (cs : list (Call A R)) (w : World) :
  getattr (LOGGING_ENABLED settings) false = false
  \/ truthy_str (LOGGING_DIRECTORY settings) = false
  \/ truthy_str (LOGGING_NAME settings) = false ->
  ensure_loggers settings w = (Ok tt, w)
  /\ _logging_setup (run settings cs w) = _logging_setup w
  /\ logging.opened (log_state (run settings cs w)) = logging.opened (log_state w)
  /\ logging.root_handlers (log_state (run settings cs w))
     = logging.root_handlers (log_state w)
  /\ logging.profile_handlers (log_state (run settings cs w))
     = logging.profile_handlers (log_state w).
Proof.
  intros H. apply valid_config_cases in H.
  split; [apply ensure_loggers_skip, H|].
  pose proof (run_invalid settings cs H w) as E.
  injection E as E1 _ _ E4 _ E6 E7. auto.
Qed.

Lemma ensure_loggers_skips_when_not_configured_witness :
  let w := run disabled_settings
               (example_calls plain_request ++ example_calls profiled_request)
               initial_world in
  ensure_loggers disabled_settings initial_world = (Ok tt, initial_world)
  /\ _logging_setup w = false
  /\ logging.opened (log_state w) = []
  /\ logging.root_handlers (log_state w) = []
  /\ logging.profile_handlers (log_state w) = [].
Proof.
  apply (ensure_loggers_skips_when_not_configured
           disabled_settings
           (example_calls plain_request ++ example_calls profiled_request)
           initial_world).
  left. reflexivity.
Defined.

(** C3.  Under a complete configuration, in a process whose flag is not
    yet set, the first [process_request] performs the set-up: it returns
    normally, sets the flag, and leaves the root logger with the handlers
    [basicConfig] gives it (the file handler, when the root logger had
    none) followed by the console handler in DEBUG mode.  After any
    further sequence of hook calls the flag is still set, the root logger
    has exactly the handlers of that first set-up, and [ensure_loggers]
    returns at once, leaving the world as it is. *)
Theorem logging_setup_runs_exactly_once
        {A R : Type} (settings : Settings) (request : HttpRequest)
        (cs : list (Call A R)) (w : World) :
  valid_config settings = true ->
  _logging_setup w = false ->
  let w1 := snd (process_request settings request w) in
  let w' := run settings cs w1 in
  fst (process_request settings request w) = Ok tt
  /\ _logging_setup w1 = true
  /\ logging.root_handlers (log_state w1)
     = (logging.root_handlers (log_state w)
        ++ (if root_is_bare w then [file_log settings] else [])
        ++ (if DEBUG settings
            then [console_log (log_level settings) (format_str settings)]
            else []))%list
  /\ _logging_setup w' = true
  /\ logging.root_handlers (log_state w') = logging.root_handlers (log_state w1)
  /\ ensure_loggers settings w' = (Ok tt, w').
Proof.
  intros Hv Hs w1 w'. subst w1 w'. unfold process_request.
  destruct (ensure_loggers_effect settings w Hv Hs)
    as (F1 & F2 & F3 & _).
  destruct (run_after_setup settings cs _ F2) as (R1 & R2 & _).
  repeat split; auto using ensure_loggers_done.
Qed.

Lemma logging_setup_runs_exactly_once_witness :
  let w1 := snd (process_request example_settings plain_request initial_world) in
  let w' := run example_settings
                (example_calls profiled_request ++ example_calls plain_request)
                w1 in
  fst (process_request example_settings plain_request initial_world) = Ok tt
  /\ _logging_setup w1 = true
  /\ logging.root_handlers (log_state w1) = [file_log example_settings]
  /\ _logging_setup w' = true
  /\ logging.root_handlers (log_state w') = logging.root_handlers (log_state w1)
  /\ ensure_loggers example_settings w' = (Ok tt, w').
Proof.
  apply (logging_setup_runs_exactly_once
           example_settings plain_request
           (example_calls profiled_request ++ example_calls plain_request)
           initial_world); reflexivity.
Defined.

Lemma repeat_ensure_loggers_skip (settings : Settings) (n : nat) (w : World) :
  valid_config settings = false -> repeat_ensure_loggers settings n w = w.
Proof.
  intros Hv. induction n as [|n IH]; simpl; [reflexivity|].
  rewrite ensure_loggers_skip by assumption. exact IH.
Qed.

Lemma flag_set_only_by_setup (settings : Settings) (w : World) :
  _logging_setup (snd (ensure_loggers settings w)) = true ->
  _logging_setup w = true \/ valid_config settings = true.
Proof.
  intros H. destruct (valid_config settings) eqn:Hv; [auto|].
  rewrite ensure_loggers_skip in H by assumption. auto.
Qed.

(** C9.  The silent-skip path of [ensure_loggers] leaves the world exactly
    as it was, however often it is taken; the flag is set by a call only if
    that call's configuration was complete (or the flag was set before);
    and a later call under a configuration that has become complete, the
    flag still being unset, performs the set-up: it returns normally, sets
    the flag, has run [basicConfig] on the untouched logging state and, in
    DEBUG mode, has added the console handler. *)
Theorem skipped_setup_leaves_state_unchanged
        (skipped later : Settings) (n : nat) (w : World) :
  valid_config skipped = false ->
  valid_config later = true ->
  _logging_setup w = false ->
  let w0 := repeat_ensure_loggers skipped n w in
  ensure_loggers skipped w = (Ok tt, w)
  /\ w0 = w
  /\ (forall settings v,
         _logging_setup (snd (ensure_loggers settings v)) = true ->
         _logging_setup v = true \/ valid_config settings = true)
  /\ fst (ensure_loggers later w0) = Ok tt
  /\ _logging_setup (snd (ensure_loggers later w0)) = true
  /\ logging.root_handlers (log_state (snd (ensure_loggers later w0)))
     = (logging.root_handlers
          (logging.basicConfig (log_level later) (format_str later)
                               (log_path later) logging.Append (log_state w))
        ++ (if DEBUG later
            then [console_log (log_level later) (format_str later)]
            else []))%list.
Proof.
  intros Hb Hg Hs w0. subst w0.
  rewrite repeat_ensure_loggers_skip by assumption.
  destruct (ensure_loggers_setup later w Hg Hs) as (st & -> & F1 & _).
  simpl. repeat split; auto using ensure_loggers_skip, flag_set_only_by_setup.
Qed.

Lemma skipped_setup_leaves_state_unchanged_witness :
  let w0 := repeat_ensure_loggers disabled_settings 3 initial_world in
  ensure_loggers disabled_settings initial_world = (Ok tt, initial_world)
  /\ w0 = initial_world
  /\ (forall settings v,
         _logging_setup (snd (ensure_loggers settings v)) = true ->
         _logging_setup v = true \/ valid_config settings = true)
  /\ fst (ensure_loggers example_settings w0) = Ok tt
  /\ _logging_setup (snd (ensure_loggers example_settings w0)) = true
  /\ logging.root_handlers (log_state (snd (ensure_loggers example_settings w0)))
     = [file_log example_settings].
Proof.
  apply (skipped_setup_leaves_state_unchanged
           disabled_settings example_settings 3 initial_world); reflexivity.
Defined.

Lemma startswith_slash_app (a b : string) :
  a <> "" -> os_path.startswith_slash (a ++ b) = os_path.startswith_slash a.
Proof.
  destruct a as [|c a]; [congruence|]. intros _. reflexivity.
Qed.

Lemma truthy_str_nonempty (o : option string) :
  truthy_str o = true -> str_of o <> "".
Proof.
  destruct o as [s|]; simpl; [|discriminate].
  destruct (String.eqb_spec s ""); simpl; congruence.
Qed.

(** [os.path.join] on a directory without a trailing slash and a relative
    file name. *)
Lemma join_plain (directory name ext : string) :
  directory <> "" -> name <> "" ->
  os_path.endswith_slash directory = false ->
  os_path.startswith_slash name = false ->
  os_path.join directory (name ++ ext) = directory ++ "/" ++ name ++ ext.
Proof.
  intros Hd Hn He Hs. unfold os_path.join.
  rewrite startswith_slash_app, Hs, He by assumption.
  destruct (String.eqb_spec directory ""); [contradiction|reflexivity].
Qed.

(** C7.  For every complete configuration and every state of the
    process.  [ensure_loggers], when the flag is not set, calls
    [basicConfig] with the file name [os.path.join(LOGGING_DIRECTORY,
    LOGGING_NAME + ".log")] and file mode 'a': if the root logger has no
    handler it gets a file handler on that path, opened in append mode,
    with the configured line format, and the root logger is put at the
    configured level; no other file is opened.
    [ensure_profile_logger], when no sink exists and profiling is allowed,
    gives the profile logger a file handler on
    [os.path.join(LOGGING_DIRECTORY, LOGGING_NAME + ".prof")] at level INFO
    with the format "%(asctime)s %(message)s", and opens that file and no
    other.  For a directory without a trailing slash and a name without a
    leading one the two paths are directory/name.log and
    directory/name.prof. *)
Theorem log_and_profile_paths (settings : Settings) (w : World) :
  valid_config settings = true ->
  let directory := str_of (LOGGING_DIRECTORY settings) in
  let name := str_of (LOGGING_NAME settings) in
  let log_file := os_path.join directory (name ++ ".log") in
  let prof_file := os_path.join directory (name ++ ".prof") in
  let w1 := snd (ensure_loggers settings w) in
  let w2 := snd (ensure_profile_logger settings w) in
  let configures := negb (_logging_setup w) && root_is_bare w in
  let creates := negb (is_set (_profile_log w))
                 && getattr (LOGGING_ALLOW_PROFILING settings) false in
  logging.root_handlers (log_state w1)
  = (logging.root_handlers (log_state w)
     ++ (if configures
         then [logging.mkHandler (logging.FileSink log_file logging.Append)
                                 logging.NOTSET (format_str settings)]
         else [])
     ++ (if negb (_logging_setup w) && DEBUG settings
         then [console_log (log_level settings) (format_str settings)]
         else []))%list
  /\ logging.opened (log_state w1)
     = (logging.opened (log_state w)
        ++ (if configures then [(log_file, logging.Append)] else []))%list
  /\ logging.root_level (log_state w1)
     = (if configures then log_level settings
        else logging.root_level (log_state w))
  /\ logging.profile_handlers (log_state w2)
     = (logging.profile_handlers (log_state w)
        ++ (if creates
            then [logging.mkHandler
                    (logging.FileSink prof_file logging.Append)
                    logging.INFO "%(asctime)s %(message)s"]
            else []))%list
  /\ logging.opened (log_state w2)
     = (logging.opened (log_state w)
        ++ (if creates then [(prof_file, logging.Append)] else []))%list
  /\ (os_path.endswith_slash directory = false ->
      os_path.startswith_slash name = false ->
      log_file = directory ++ "/" ++ name ++ ".log"
      /\ prof_file = directory ++ "/" ++ name ++ ".prof").
Proof.
  intros Hv directory name log_file prof_file w1 w2 configures creates.
  assert (L : logging.root_handlers (log_state w1)
              = (logging.root_handlers (log_state w)
                 ++ (if configures then [file_log settings] else [])
                 ++ (if negb (_logging_setup w) && DEBUG settings
                     then [console_log (log_level settings)
                                       (format_str settings)]
                     else []))%list
              /\ logging.opened (log_state w1)
                 = (logging.opened (log_state w)
                    ++ (if configures then [(log_file, logging.Append)]
                        else []))%list
              /\ logging.root_level (log_state w1)
                 = (if configures then log_level settings
                    else logging.root_level (log_state w))).
  { subst w1 configures. destruct (_logging_setup w) eqn:Hs.
    - rewrite ensure_loggers_done by assumption. simpl.
      rewrite !app_nil_r. auto.
    - destruct (ensure_loggers_effect settings w Hv Hs)
        as (_ & _ & F3 & F4 & F5).
      rewrite F3, F4, F5. simpl. auto. }
  destruct L as (L1 & L2 & L3).
  split; [exact L1|]. split; [exact L2|]. split; [exact L3|].
  assert (P : os_path.endswith_slash directory = false ->
              os_path.startswith_slash name = false ->
              log_file = directory ++ "/" ++ name ++ ".log"
              /\ prof_file = directory ++ "/" ++ name ++ ".prof").
  { intros E1 E2. unfold valid_config in Hv.
    apply andb_true_iff in Hv as [Hv Hn]. apply andb_true_iff in Hv as [_ Hd].
    subst log_file prof_file directory name.
    split; apply join_plain; auto using truthy_str_nonempty. }
  subst w2. rewrite ensure_profile_logger_eq.
  unfold profile_logger_wanted. rewrite Hv. subst creates. cbn [andb].
  destruct (negb (is_set (_profile_log w))
            && getattr (LOGGING_ALLOW_PROFILING settings) false); simpl;
    rewrite ?app_nil_r; auto.
Qed.

Lemma log_and_profile_paths_witness :
  let w1 := snd (ensure_loggers example_settings initial_world) in
  let w2 := snd (ensure_profile_logger example_settings initial_world) in
  logging.root_handlers (log_state w1)
  = [logging.mkHandler
       (logging.FileSink "/var/log/site.log" logging.Append)
       logging.NOTSET DEFAULT_LINE_FORMAT]
  /\ logging.opened (log_state w1) = [("/var/log/site.log", logging.Append)]
  /\ logging.root_level (log_state w1) = logging.DEBUG
  /\ logging.profile_handlers (log_state w2)
     = [logging.mkHandler
          (logging.FileSink "/var/log/site.prof" logging.Append)
          logging.INFO "%(asctime)s %(message)s"]
  /\ logging.opened (log_state w2) = [("/var/log/site.prof", logging.Append)]
  /\ (os_path.endswith_slash "/var/log" = false ->
      os_path.startswith_slash "site" = false ->
      "/var/log/site.log" = "/var/log/site.log"
      /\ "/var/log/site.prof" = "/var/log/site.prof").
Proof.
  apply (log_and_profile_paths example_settings initial_world); reflexivity.
Defined.

Lemma log_level_positive (settings : Settings) : 10 <= log_level settings.
Proof.
  unfold log_level.
  destruct (getattr (LOGGING_LEVEL settings) DEFAULT_LOG_LEVEL);
    unfold logging.getLevelName, logging.DEBUG, logging.INFO, logging.WARNING,
      logging.ERROR, logging.CRITICAL; lia.
Qed.

(** C8, as the code has it.  Under a complete configuration the first
    set-up appends a console handler to the root logger if and only if
    [settings.DEBUG] is true, whatever handlers the root logger had; the
    console handler is at the configured level and has the line format
    given to the file handler, while the file handler itself stays at
    NOTSET (the level is put on the root logger).  When the root logger
    had no handler before, it then has the file handler and, exactly in
    DEBUG mode, the console handler, and a record logged on the root
    logger at any level is written to the file and the console alike in
    DEBUG mode, and to the file only otherwise. *)
Theorem console_handler_iff_debug
        (settings : Settings) (w : World) (lvl : Z) (msg : string) :
  valid_config settings = true ->
  _logging_setup w = false ->
  let st := log_state (snd (ensure_loggers settings w)) in
  logging.root_handlers st
  = (logging.root_handlers (log_state w)
     ++ (if root_is_bare w then [file_log settings] else [])
     ++ (if DEBUG settings
         then [logging.mkHandler logging.ConsoleSink (log_level settings)
                                 (logging.h_format (file_log settings))]
         else []))%list
  /\ logging.h_level (file_log settings) = logging.NOTSET
  /\ (logging.root_handlers (log_state w) = [] ->
      logging.root_level st = log_level settings
      /\ existsb is_console (logging.root_handlers st) = DEBUG settings
      /\ logging.emit logging.RootLogger lvl msg st
         = if log_level settings <=? lvl
           then logging.mkWritten
                  (logging.FileSink (log_path settings) logging.Append)
                  (format_str settings) lvl msg
                :: (if DEBUG settings
                    then [logging.mkWritten logging.ConsoleSink
                                            (format_str settings) lvl msg]
                    else [])
           else []).
Proof.
  intros Hv Hs st. subst st.
  destruct (ensure_loggers_effect settings w Hv Hs) as (_ & _ & H1 & H2 & _).
  split; [exact H1|]. split; [reflexivity|]. intros Hr.
  unfold logging.emit, logging.isEnabledFor, logging.getEffectiveLevel,
    logging.handlers_for.
  rewrite H1, H2. unfold root_is_bare. rewrite Hr. cbn [app].
  split; [reflexivity|]. split; [destruct (DEBUG settings); reflexivity|].
  pose proof (log_level_positive settings) as Hp.
  destruct (log_level settings <=? lvl) eqn:E; [|reflexivity].
  apply Z.leb_le in E.
  assert (E0 : (logging.NOTSET <=? lvl) = true)
    by (apply Z.leb_le; unfold logging.NOTSET; lia).
  destruct (DEBUG settings); simpl; unfold logging.handle; simpl;
    rewrite E0; rewrite ?(proj2 (Z.leb_le _ _) E); auto.
Qed.

Lemma console_handler_iff_debug_witness :
  let st := log_state (snd (ensure_loggers debug_warning_settings
                                           initial_world)) in
  logging.root_handlers st
  = [file_log debug_warning_settings;
     logging.mkHandler logging.ConsoleSink logging.WARNING DEFAULT_LINE_FORMAT]
  /\ logging.h_level (file_log debug_warning_settings) = logging.NOTSET
  /\ (logging.root_handlers (log_state initial_world) = [] ->
      logging.root_level st = logging.WARNING
      /\ existsb is_console (logging.root_handlers st) = true
      /\ logging.emit logging.RootLogger logging.ERROR "boom" st
         = [logging.mkWritten
              (logging.FileSink "/var/log/site.log" logging.Append)
              DEFAULT_LINE_FORMAT logging.ERROR "boom";
            logging.mkWritten logging.ConsoleSink DEFAULT_LINE_FORMAT
                              logging.ERROR "boom"]).
Proof.
  apply (console_handler_iff_debug debug_warning_settings initial_world
                                   logging.ERROR "boom"); reflexivity.
Defined.

(** C8 as stated fails.  In DEBUG mode with LOGGING_LEVEL = "WARNING" the
    file handler is at NOTSET and the console handler at WARNING, so a
    DEBUG record of a child logger that has its own level reaches the file
    but not the console; and when the root logger already had a handler,
    with DEBUG off, a record on the root logger goes to that handler and
    not to the log file, for which no handler exists. *)
Lemma console_and_file_levels_differ :
  map logging.h_level
      (logging.root_handlers
         (log_state (snd (ensure_loggers debug_warning_settings
                                         initial_world))))
  = [logging.NOTSET; logging.WARNING]
  /\ map logging.w_sink
         (logging.emit
            logging.ProfileLogger logging.DEBUG "detail"
            (log_state (snd (ensure_loggers debug_warning_settings
                                            child_debug_world))))
     = [logging.FileSink "/var/log/site.log" logging.Append]
  /\ map logging.w_sink
         (logging.emit
            logging.RootLogger logging.ERROR "boom"
            (log_state (snd (ensure_loggers example_settings
                                            preconfigured_world))))
     = [logging.ConsoleSink].
Proof.
  repeat split; reflexivity.
Qed.

Lemma step_sink_invariant {A R : Type} (settings : Settings) (c : Call A R)
      (w0 w : World) :
  sink_invariant w0 w -> sink_invariant w0 (step settings c w).
Proof.
  intros Inv.
  assert (Keep : forall v, _profile_log v = _profile_log w ->
                           logging.profile_handlers (log_state v)
                           = logging.profile_handlers (log_state w) ->
                           sink_invariant w0 v).
  { intros v E1 E2. unfold sink_invariant. rewrite E1, E2. exact Inv. }
  destruct c; simpl.
  - unfold process_request.
    destruct (ensure_loggers_profile settings w) as (_ & E1 & E2). auto.
  - pose proof (process_view_setup settings request callback callback_args
                                   callback_kwargs w) as E.
    injection E as _ E2 _ _ _ E6 _. auto.
  - pose proof (process_response_setup settings request tt w) as E.
    destruct (profiling_requested settings request
              && profile_logger_wanted settings w) eqn:Hw.
    + injection E as _ E2 _ _ _ E6 _.
      apply andb_true_iff in Hw as [_ Hw]. unfold profile_logger_wanted in Hw.
      apply andb_true_iff in Hw as [Hw _]. apply andb_true_iff in Hw as [_ Hw].
      destruct Inv as [[N H]|[N H]]; [|rewrite N in Hw; discriminate].
      right. simpl in E2, E6. rewrite E2, E6, H. eauto.
    + injection E as _ E2 _ _ _ E6 _. auto.
Qed.

Lemma run_each_sink_invariant {A R : Type} (cs : list (Settings * Call A R))
      (w0 : World) :
  forall w, sink_invariant w0 w -> sink_invariant w0 (run_each cs w).
Proof.
  induction cs as [|[s c] cs IH]; intros w Inv; [exact Inv|].
  unfold run_each in *. simpl. apply IH, step_sink_invariant, Inv.
Qed.

(** C10.  [ensure_profile_logger] changes the world only when
    LOGGING_ENABLED is true, the directory and the name are set,
    LOGGING_ALLOW_PROFILING is true and [_profile_log] is still None; and
    over any sequence of hook calls, under whatever settings each is made,
    starting where no sink exists, the profile logger gains at most one
    handler: the sink is created at most once. *)
Theorem profile_sink_created_at_most_once
        {A R : Type} (settings : Settings) (v : World)
        (cs : list (Settings * Call A R)) (w : World) :
  _profile_log w = None ->
  (ensure_profile_logger settings v <> (Ok tt, v) ->
   getattr (LOGGING_ENABLED settings) false = true
   /\ truthy_str (LOGGING_DIRECTORY settings) = true
   /\ truthy_str (LOGGING_NAME settings) = true
   /\ getattr (LOGGING_ALLOW_PROFILING settings) false = true
   /\ _profile_log v = None)
  /\ (List.length (logging.profile_handlers (log_state (run_each cs w)))
      <= S (List.length (logging.profile_handlers (log_state w))))%nat.
Proof.
  intros Hn. split.
  - rewrite ensure_profile_logger_eq.
    unfold profile_logger_wanted, valid_config.
    destruct (getattr (LOGGING_ENABLED settings) false),
      (truthy_str (LOGGING_DIRECTORY settings)),
      (truthy_str (LOGGING_NAME settings)),
      (getattr (LOGGING_ALLOW_PROFILING settings) false),
      (_profile_log v); simpl; intros H; try congruence; auto.
  - assert (Inv : sink_invariant w w) by (left; auto).
    destruct (run_each_sink_invariant cs w w Inv) as [[_ ->]|[_ [h ->]]].
    + lia.
    + rewrite length_app. simpl. lia.
Qed.

Lemma profile_sink_created_at_most_once_witness :
  (ensure_profile_logger example_settings initial_world
   <> (Ok tt, initial_world) ->
   getattr (LOGGING_ENABLED example_settings) false = true
   /\ truthy_str (LOGGING_DIRECTORY example_settings) = true
   /\ truthy_str (LOGGING_NAME example_settings) = true
   /\ getattr (LOGGING_ALLOW_PROFILING example_settings) false = true
   /\ _profile_log initial_world = None)
  /\ (List.length
        (logging.profile_handlers
           (log_state
              (run_each (map (pair example_settings)
                             (example_calls profiled_request
                              ++ example_calls profiled_request))
                        initial_world)))
      <= 1)%nat.
Proof.
  apply (profile_sink_created_at_most_once
           example_settings initial_world
           (map (pair example_settings)
                (example_calls profiled_request ++ example_calls profiled_request))
           initial_world).
  reflexivity.
Defined.

Lemma process_view_eq {A R : Type} (settings : Settings) (request : HttpRequest)
      (callback : View A R) (args : list A) (kwargs : list (string * A))
      (w : World) :
  process_view settings request callback args kwargs w
  = if in_GET "profiling" request
       && getattr (LOGGING_ALLOW_PROFILING settings) false
    then if cProfile.binds_runcall_parameter kwargs
         then (Raise cProfile.runcall_error,
               set_profiler (Some cProfile.new) w)
         else (call_view callback request args kwargs,
               set_profiler
                 (Some (profiler_after (callback request args kwargs))) w)
    else (Ok None, w).
Proof.
  unfold process_view, profiling_requested, call_view.
  destruct (in_GET "profiling" request
            && getattr (LOGGING_ALLOW_PROFILING settings) false);
    [|reflexivity].
  unfold_hooks. simpl.
  destruct (cProfile.binds_runcall_parameter kwargs); reflexivity.
Qed.

(** C2 (the code departs from it).  With profiling active, a view called
    with a keyword argument named [func] (a URL pattern with a group of
    that name) returns "body" when called directly, but [process_view]
    raises TypeError: [runcall(self, func, *args, **kw)] cannot bind the
    keyword to its own parameter, the view never runs, and
    [self.profiler] is left holding a profiler without statistics. *)
Theorem process_view_fails_on_runcall_keyword :
  call_view example_view profiled_request [] [("func", 7)]
  = Ok (Some "body")
  /\ process_view example_settings profiled_request example_view []
                  [("func", 7)] initial_world
     = (Raise cProfile.runcall_error,
        set_profiler (Some cProfile.new) initial_world).
Proof.
  split; reflexivity.
Qed.

Lemma process_response_not_requested {Resp : Type} (settings : Settings)
      (request : HttpRequest) (response : Resp) (w : World) :
  profiling_requested settings request = false ->
  process_response settings request response w = (Ok response, w).
Proof.
  intros H. unfold process_response. rewrite H. reflexivity.
Qed.

(** C4.  [process_view] invokes the profiler exactly when the query string
    has a [profiling] parameter and LOGGING_ALLOW_PROFILING is true.  Then
    [self.profiler] is replaced by a new profiler and [runcall] is called
    with the view: its result is the view's own outcome and the profiler
    holds the statistics of the call, unless a keyword argument collides
    with a parameter of [runcall], which raises TypeError before the view
    runs.  Otherwise [process_view] returns None (no override) and leaves
    the world, the profiler attribute included, as it was.  A [profiling]
    parameter counts whatever its value.  And when LOGGING_ALLOW_PROFILING
    is false (or absent), both [process_view] and [process_response] leave
    the world untouched, so nothing is written to a .prof file and none is
    opened. *)
Theorem profiler_wraps_view_iff_requested
        {A R Resp : Type} (settings : Settings) (request : HttpRequest)
        (callback : View A R) (callback_args : list A)
        (callback_kwargs : list (string * A)) (response : Resp) (w : World) :
  process_view settings request callback callback_args callback_kwargs w
  = (if in_GET "profiling" request
        && getattr (LOGGING_ALLOW_PROFILING settings) false
     then if cProfile.binds_runcall_parameter callback_kwargs
          then (Raise cProfile.runcall_error,
                set_profiler (Some cProfile.new) w)
          else (call_view callback request callback_args callback_kwargs,
                set_profiler
                  (Some (profiler_after
                           (callback request callback_args callback_kwargs)))
                  w)
     else (Ok None, w))
  /\ (forall value rest p m,
         in_GET "profiling" (mkRequest (("profiling", value) :: rest) p m)
         = true)
  /\ (getattr (LOGGING_ALLOW_PROFILING settings) false = false ->
      process_view settings request callback callback_args callback_kwargs w
      = (Ok None, w)
      /\ process_response settings request response w = (Ok response, w)).
Proof.
  split; [apply process_view_eq|]. split.
  - reflexivity.
  - intros Ha. rewrite process_view_eq, Ha, andb_false_r.
    split; [reflexivity|]. apply process_response_not_requested.
    unfold profiling_requested. rewrite Ha. apply andb_false_r.
Qed.

(** [print_stats(1)] on a profile that has statistics. *)
Lemma print_stats_time (p : cProfile.Profile) :
  cProfile.has_stats p = true ->
  cProfile.print_stats 1 p
  = Ok (cProfile.report cProfile.time None (cProfile.collected p)).
Proof.
  unfold cProfile.print_stats, cProfile.has_stats.
  destruct (cProfile.collected p); [discriminate|reflexivity].
Qed.

(** [print_stats] on a profile without statistics, whatever the key. *)
Lemma print_stats_empty (sort : Z) (p : cProfile.Profile) :
  cProfile.has_stats p = false ->
  cProfile.print_stats sort p = Raise cProfile.no_stats_error.
Proof.
  unfold cProfile.print_stats, cProfile.has_stats.
  destruct (cProfile.collected p); [reflexivity|discriminate].
Qed.

(** When no profiling sink can be created, a profiled request makes
    [process_response] raise at [_profile_log.log]. *)
Lemma process_response_without_sink {Resp : Type} (settings : Settings)
      (request : HttpRequest) (response : Resp) (w : World)
      (p : cProfile.Profile) :
  profiling_requested settings request = true ->
  valid_config settings = false ->
  _profile_log w = None ->
  self_profiler w = Some p ->
  cProfile.has_stats p = true ->
  fst (process_response settings request response w)
  = Raise (AttributeError "NoneType" "log").
Proof.
  intros Hq Hv Hn Hp Hc. unfold process_response. rewrite Hq.
  unfold_hooks. rewrite ensure_profile_logger_eq.
  unfold profile_logger_wanted. rewrite Hv. simpl. rewrite Hp. simpl.
  rewrite (print_stats_time (cProfile.create_stats p) Hc). simpl.
  rewrite Hn. reflexivity.
Qed.

(** C1 (the code departs from it).  With LOGGING_ALLOW_PROFILING true and
    LOGGING_ENABLED, LOGGING_DIRECTORY and LOGGING_NAME absent, a request
    with ?profiling=1 whose view ran under the profiler makes
    [process_response] raise AttributeError instead of returning the
    response: [_profile_log] is still None when its [log] method is
    called. *)
Theorem process_response_raises_when_sink_missing :
  fst (process_response disabled_settings profiled_request "response"
                        (after_view disabled_settings profiled_request))
  = Raise (AttributeError "NoneType" "log").
Proof.
  apply (process_response_without_sink
           disabled_settings profiled_request "response"
           (after_view disabled_settings profiled_request)
           (profiler_after (example_view profiled_request [] [])));
    reflexivity.
Qed.

Lemma skipn_length_app {T : Type} (l m : list T) :
  skipn (List.length l) (l ++ m) = m.
Proof.
  induction l as [|x l IH]; simpl; auto.
Qed.

Lemma messages_to_app (sink : logging.Sink) (a b : list logging.Written) :
  messages_to sink (a ++ b) = (messages_to sink a ++ messages_to sink b)%list.
Proof.
  unfold messages_to. rewrite filter_app, map_app. reflexivity.
Qed.

(** Handlers on other sinks contribute nothing to a sink's messages. *)
Lemma messages_to_avoiding (sink : logging.Sink) (lvl : Z) (msg : string)
      (hs : list logging.Handler) :
  forallb (fun h => negb (sink_eqb (logging.h_sink h) sink)) hs = true ->
  messages_to sink (flat_map (logging.handle lvl msg) hs) = [].
Proof.
  induction hs as [|h hs IH]; simpl; [reflexivity|].
  intros H. apply andb_true_iff in H as [H1 H2].
  rewrite messages_to_app, IH by assumption. rewrite app_nil_r.
  unfold logging.handle. destruct (logging.h_level h <=? lvl); [|reflexivity].
  unfold messages_to. simpl. apply negb_true_iff in H1. rewrite H1. reflexivity.
Qed.

(** One INFO record on the profile logger, as seen from the profiling
    sink. *)
Lemma profile_emit_to_sink (directory name msg : string) (st : logging.State) :
  logging.isEnabledFor logging.ProfileLogger logging.INFO st = true ->
  logging.profile_handlers st = [profile_handler directory name] ->
  forallb (fun h => negb (sink_eqb (logging.h_sink h)
                                   (logging.h_sink (profile_handler directory name))))
          (logging.root_handlers st) = true ->
  messages_to (logging.h_sink (profile_handler directory name))
              (logging.emit logging.ProfileLogger logging.INFO msg st)
  = [msg].
Proof.
  intros He Hh Hr. unfold logging.emit. rewrite He.
  unfold logging.handlers_for. rewrite Hh. cbn [app flat_map].
  rewrite messages_to_app, messages_to_avoiding by assumption.
  unfold messages_to. simpl. rewrite String.eqb_refl. reflexivity.
Qed.

(** C6, as the code has it.  For a profiled request, in a process where
    the profiling sink exists (the profile logger has the handler of
    [ensure_profile_logger], and no handler of the root logger writes to
    the same file), the view's profiler, with the statistics of its run,
    is in [self.profiler] and INFO records are enabled for the profile
    logger, [process_response] returns
    the response and writes exactly two records to the profiling sink:
    first the header line naming the request's path and method, then the
    statistics of all profiled functions ordered by internal time, as
    [print_stats(1)] prints them, stripped. *)
Theorem process_response_writes_header_then_stats
        {Resp : Type} (settings : Settings) (request : HttpRequest)
        (response : Resp) (w : World) (p : cProfile.Profile)
        (directory name : string) :
  profiling_requested settings request = true ->
  _profile_log w = Some logging.ProfileLogger ->
  self_profiler w = Some p ->
  cProfile.has_stats p = true ->
  logging.profile_handlers (log_state w) = [profile_handler directory name] ->
  root_avoids (logging.h_sink (profile_handler directory name)) w = true ->
  logging.isEnabledFor logging.ProfileLogger logging.INFO (log_state w) = true ->
  let r := process_response settings request response w in
  fst r = Ok response
  /\ messages_to (logging.FileSink (os_path.join directory (name ++ ".prof"))
                                   logging.Append)
                 (new_written w (snd r))
     = [header_line request; stats_body p].
Proof.
  intros Hq Hl Hp Hc Hh Hr He r. subst r. unfold process_response. rewrite Hq.
  unfold_hooks. rewrite ensure_profile_logger_eq.
  unfold profile_logger_wanted. rewrite Hl. simpl.
  rewrite andb_false_r. simpl. rewrite Hp. simpl.
  rewrite (print_stats_time (cProfile.create_stats p) Hc). simpl.
  rewrite !Hl. simpl. rewrite Hl. simpl. split; [reflexivity|].
  unfold new_written. simpl. rewrite <- app_assoc, skipn_length_app.
  rewrite messages_to_app.
  change (logging.FileSink (os_path.join directory (name ++ ".prof"))
                           logging.Append)
    with (logging.h_sink (profile_handler directory name)).
  rewrite !profile_emit_to_sink; auto.
Qed.

Lemma process_response_writes_header_then_stats_witness :
  let w := snd (ensure_profile_logger
                  example_settings
                  (after_view example_settings profiled_request)) in
  let r := process_response example_settings profiled_request "response" w in
  fst r = Ok "response"
  /\ messages_to (logging.FileSink "/var/log/site.prof" logging.Append)
                 (new_written w (snd r))
     = [header_line profiled_request;
        stats_body (profiler_after (example_view profiled_request [] []))].
Proof.
  apply (process_response_writes_header_then_stats
           example_settings profiled_request "response"
           (snd (ensure_profile_logger
                   example_settings
                   (after_view example_settings profiled_request)))
           (profiler_after (example_view profiled_request [] []))
           "/var/log" "site"); reflexivity.
Defined.

(** C6 as stated fails.  For the example view (two profiled functions
    and the profiler's own [disable]) under the example settings the second record is not the top-1
    cumulative-time summary of the statistics; and with LOGGING_LEVEL set
    to WARNING a profiled request whose sink exists gets no record written
    to the sink at all. *)
Lemma stats_record_is_not_top1_cumulative :
  prof_messages example_settings
  <> [header_line profiled_request;
      spec_top1_cumulative_summary
        (cProfile.collected
           (profiler_after (example_view profiled_request [] [])))]
  /\ _profile_log (profiled_world warning_settings) = Some logging.ProfileLogger
  /\ profiling_requested warning_settings profiled_request = true
  /\ prof_messages warning_settings = [].
Proof.
  split; [|repeat split; reflexivity].
  vm_compute. intros H. discriminate H.
Qed.

(** ** Further properties of the hooks *)

(** [process_response] on a profiled request whose profiler, with
    statistics, and logger are both there: everything it does, field by
    field. *)
Lemma process_response_profiled {Resp : Type} (settings : Settings)
      (request : HttpRequest) (response : Resp) (w : World)
      (p : cProfile.Profile) (lg : logging.Logger) :
  profiling_requested settings request = true ->
  _profile_log w = Some lg ->
  self_profiler w = Some p ->
  cProfile.has_stats p = true ->
  process_response settings request response w
  = (Ok response,
     on_logging
       (logging.log lg logging.INFO (stats_body p))
       (on_logging
          (logging.log lg logging.INFO (header_line request))
          (set_profiler (Some (cProfile.stats_taken p)) w))).
Proof.
  intros Hq Hl Hp Hc. unfold process_response. rewrite Hq.
  unfold_hooks. rewrite ensure_profile_logger_eq.
  unfold profile_logger_wanted. rewrite Hl. simpl.
  rewrite andb_false_r. simpl. rewrite Hp. simpl.
  rewrite (print_stats_time (cProfile.create_stats p) Hc). simpl.
  rewrite !Hl. simpl. rewrite Hl. simpl. unfold stats_body.
  destruct w; reflexivity.
Qed.

(** [process_response] returns the response it was given unless it raises,
    and it raises in exactly three situations, all on a profiled request:
    [self.profiler] does not exist ([process_view] never ran), an
    AttributeError; [self.profiler] holds no statistics (the state a
    failed [runcall] leaves), the TypeError of [pstats.Stats]; or the
    profiling sink neither exists nor can be created because the general
    logging configuration is incomplete, an AttributeError on None. *)
Theorem process_response_outcome
        {Resp : Type} (settings : Settings) (request : HttpRequest)
        (response : Resp) (w : World) :
  fst (process_response settings request response w)
  = if profiling_requested settings request
    then match self_profiler w with
         | None => Raise (AttributeError "LoggingMiddleware" "profiler")
         | Some p =>
             if cProfile.has_stats p
             then if is_set (_profile_log w) || valid_config settings
                  then Ok response
                  else Raise (AttributeError "NoneType" "log")
             else Raise cProfile.no_stats_error
         end
    else Ok response.
Proof.
  unfold process_response.
  destruct (profiling_requested settings request) eqn:Hq; [|reflexivity].
  unfold_hooks. rewrite ensure_profile_logger_eq.
  unfold profile_logger_wanted, profiling_requested in *.
  apply andb_true_iff in Hq as [_ Ha]. rewrite Ha, andb_true_r.
  destruct (self_profiler w) as [p|] eqn:Hp;
    [|destruct (valid_config settings && negb (is_set (_profile_log w)));
      simpl; rewrite Hp; reflexivity].
  destruct (cProfile.has_stats p) eqn:Hc.
  - destruct (_profile_log w) eqn:Hl, (valid_config settings);
      simpl; rewrite Hp; simpl;
      rewrite (print_stats_time (cProfile.create_stats p) Hc); simpl;
      rewrite ?Hl; simpl; rewrite ?Hl; reflexivity.
  - destruct (valid_config settings && negb (is_set (_profile_log w)));
      simpl; rewrite Hp; simpl;
      rewrite (print_stats_empty 1 (cProfile.create_stats p) Hc);
      reflexivity.
Qed.

(** [process_response] puts [sys.stdout] back and prints nothing on the
    real standard output, with one exception: there is no [try]/[finally]
    around [print_stats(1)], so when it raises (a profiler without
    statistics) [sys.stdout] is left replaced by the [StringIO] buffer.
    When [process_response] raises before or after that point, [sys.stdout]
    is what it was. *)
Theorem process_response_restores_stdout
        {Resp : Type} (settings : Settings) (request : HttpRequest)
        (response : Resp) (w : World) :
  sys_stdout (snd (process_response settings request response w))
  = (if profiling_requested settings request && stats_missing w
     then StringIO ""
     else sys_stdout w)
  /\ terminal (snd (process_response settings request response w))
     = terminal w.
Proof.
  unfold process_response, stats_missing.
  destruct (profiling_requested settings request); [|auto].
  unfold_hooks. rewrite ensure_profile_logger_eq.
  destruct (self_profiler w) as [p|] eqn:Hp;
    [|destruct (profile_logger_wanted settings w);
      simpl; rewrite Hp; auto].
  destruct (cProfile.has_stats p) eqn:Hc.
  - destruct (profile_logger_wanted settings w), (_profile_log w) eqn:Hl;
      simpl; rewrite Hp; simpl;
      rewrite (print_stats_time (cProfile.create_stats p) Hc); simpl;
      rewrite ?Hl; simpl; rewrite ?Hl; simpl; auto.
  - destruct (profile_logger_wanted settings w);
      simpl; rewrite Hp; simpl;
      rewrite (print_stats_empty 1 (cProfile.create_stats p) Hc);
      simpl; auto.
Qed.

(** The set-up announces itself with one INFO record, "Logging to <path>
    with a minimum level of <level>", on every handler it has registered;
    since the root logger has just been put at the configured level, the
    announcement is written only when that level is at most INFO, and is
    dropped under WARNING, ERROR and CRITICAL. *)
Theorem setup_announcement
        (settings : Settings) (w : World) :
  valid_config settings = true ->
  _logging_setup w = false ->
  logging.root_handlers (log_state w) = [] ->
  let message :=
    "Logging to " ++ log_path settings ++ " with a minimum level of "
      ++ logging.level_name_str
           (getattr (LOGGING_LEVEL settings) DEFAULT_LOG_LEVEL) in
  new_written w (snd (ensure_loggers settings w))
  = if log_level settings <=? logging.INFO
    then logging.mkWritten
           (logging.FileSink (log_path settings) logging.Append)
           (format_str settings) logging.INFO message
         :: (if DEBUG settings
             then [logging.mkWritten logging.ConsoleSink (format_str settings)
                                     logging.INFO message]
             else [])
    else [].
Proof.
  intros Hv Hs Hr message. subst message. unfold valid_config in Hv.
  apply andb_true_iff in Hv as [Hv Hn]. apply andb_true_iff in Hv as [He Hd].
  unfold new_written, ensure_loggers, bind, get, modify, ret.
  rewrite Hs, He, Hd, Hn. simpl.
  fold (log_level settings) (format_str settings) (log_path settings).
  unfold on_logging, logging.info, logging.basicConfig. cbn [log_state].
  rewrite Hr.
  destruct (DEBUG settings); cbn; rewrite Hr; cbn;
    rewrite skipn_length_app;
    unfold logging.emit, logging.isEnabledFor, logging.handle, logging.INFO;
    cbn; destruct (log_level settings <=? 20); reflexivity.
Qed.

Lemma setup_announcement_witness :
  new_written initial_world (snd (ensure_loggers warning_settings initial_world))
  = []
  /\ new_written initial_world
                 (snd (ensure_loggers example_settings initial_world))
     = [logging.mkWritten
          (logging.FileSink "/var/log/site.log" logging.Append)
          DEFAULT_LINE_FORMAT logging.INFO
          "Logging to /var/log/site.log with a minimum level of DEBUG"].
Proof.
  split.
  - apply (setup_announcement warning_settings initial_world); reflexivity.
  - apply (setup_announcement example_settings initial_world); reflexivity.
Defined.

(** When the root logger already has a handler (something else in the
    process configured logging first), the set-up still runs and sets the
    flag, but [basicConfig] does nothing: no log file is opened, the root
    logger keeps its level and its handlers, and only the console handler
    is added, in DEBUG mode. *)
Theorem setup_with_logging_already_configured
        (settings : Settings) (w : World)
        (h : logging.Handler) (hs : list logging.Handler) :
  valid_config settings = true ->
  _logging_setup w = false ->
  logging.root_handlers (log_state w) = h :: hs ->
  let w' := snd (ensure_loggers settings w) in
  _logging_setup w' = true
  /\ logging.opened (log_state w') = logging.opened (log_state w)
  /\ logging.root_level (log_state w') = logging.root_level (log_state w)
  /\ logging.root_handlers (log_state w')
     = (h :: hs
        ++ (if DEBUG settings
            then [console_log (log_level settings) (format_str settings)]
            else []))%list.
Proof.
  intros Hv Hs Hr w'. subst w'. unfold valid_config in Hv.
  apply andb_true_iff in Hv as [Hv Hn]. apply andb_true_iff in Hv as [He Hd].
  unfold ensure_loggers, bind, get, modify, ret.
  rewrite Hs, He, Hd, Hn. simpl.
  fold (log_level settings) (format_str settings) (log_path settings).
  unfold on_logging, logging.info, logging.basicConfig. cbn [log_state].
  rewrite Hr.
  destruct (DEBUG settings); cbn; rewrite Hr; cbn;
    rewrite ?app_nil_r; auto.
Qed.

Lemma setup_with_logging_already_configured_witness :
  let w := on_logging (logging.addHandler logging.RootLogger
                                          logging.StreamHandler)
                      initial_world in
  let w' := snd (ensure_loggers example_settings w) in
  _logging_setup w' = true
  /\ logging.opened (log_state w') = []
  /\ logging.root_level (log_state w') = logging.WARNING
  /\ logging.root_handlers (log_state w') = [logging.StreamHandler].
Proof.
  apply (setup_with_logging_already_configured
           example_settings
           (on_logging (logging.addHandler logging.RootLogger
                                           logging.StreamHandler)
                       initial_world)
           logging.StreamHandler []); reflexivity.
Defined.

(** Once the flag is set, the general logging configuration is frozen:
    whatever settings later hook calls are made under (another directory,
    name, level, format or DEBUG value), the flag stays set and the root
    logger keeps the handlers and the level of the first set-up. *)
Theorem settings_changes_after_setup_are_ignored
        {A R : Type} (cs : list (Settings * Call A R)) (w : World) :
  _logging_setup w = true ->
  _logging_setup (run_each cs w) = true
  /\ logging.root_handlers (log_state (run_each cs w))
     = logging.root_handlers (log_state w)
  /\ logging.root_level (log_state (run_each cs w))
     = logging.root_level (log_state w).
Proof.
  revert w. induction cs as [|[s c] cs IH]; intros w Hs; [auto|].
  destruct (step_after_setup s c w Hs) as (H1 & H2 & H3).
  destruct (IH _ H1) as (I1 & I2 & I3).
  unfold run_each in *. simpl. rewrite I2, I3. auto.
Qed.

Lemma settings_changes_after_setup_are_ignored_witness :
  let w := snd (ensure_loggers example_settings initial_world) in
  let cs := map (pair warning_settings) (example_calls plain_request) in
  _logging_setup (run_each cs w) = true
  /\ logging.root_handlers (log_state (run_each cs w))
     = logging.root_handlers (log_state w)
  /\ logging.root_level (log_state (run_each cs w))
     = logging.root_level (log_state w).
Proof.
  apply (settings_changes_after_setup_are_ignored
           (map (pair warning_settings) (example_calls plain_request))
           (snd (ensure_loggers example_settings initial_world))).
  reflexivity.
Defined.

Lemma step_keeps_sink {A R : Type} (settings : Settings) (c : Call A R)
      (w : World) (lg : logging.Logger) :
  _profile_log w = Some lg ->
  _profile_log (step settings c w) = Some lg
  /\ logging.profile_handlers (log_state (step settings c w))
     = logging.profile_handlers (log_state w).
Proof.
  intros Hl. destruct c; simpl.
  - unfold process_request.
    destruct (ensure_loggers_profile settings w) as (_ & E1 & E2).
    rewrite E1, E2. auto.
  - pose proof (process_view_setup settings request callback callback_args
                                   callback_kwargs w) as E.
    injection E as _ E2 _ _ _ E6 _. rewrite E2, E6. auto.
  - pose proof (process_response_setup settings request tt w) as E.
    unfold profile_logger_wanted in E. rewrite Hl in E. simpl in E.
    rewrite andb_false_r, andb_false_r in E.
    injection E as _ E2 _ _ _ E6 _. rewrite E2, E6. auto.
Qed.

(** Once the profiling sink exists it is never replaced or joined by
    another: whatever settings later hook calls are made under,
    [_profile_log] and the handlers of the profile logger stay as they
    are, so profiles keep going to the file of the first profiled
    request even if LOGGING_DIRECTORY or LOGGING_NAME change. *)
Theorem profile_sink_is_never_replaced
        {A R : Type} (cs : list (Settings * Call A R)) (w : World)
        (lg : logging.Logger) :
  _profile_log w = Some lg ->
  _profile_log (run_each cs w) = Some lg
  /\ logging.profile_handlers (log_state (run_each cs w))
     = logging.profile_handlers (log_state w).
Proof.
  revert w. induction cs as [|[s c] cs IH]; intros w Hl; [auto|].
  destruct (step_keeps_sink s c w lg Hl) as (H1 & H2).
  destruct (IH _ H1) as (I1 & I2).
  unfold run_each in *. simpl. rewrite I2. auto.
Qed.

Lemma profile_sink_is_never_replaced_witness :
  let w := profiled_world example_settings in
  let cs := map (pair (mkSettings (Some true) (Some "/tmp") (Some "other")
                                  (Some true) None None true))
                (example_calls profiled_request) in
  _profile_log (run_each cs w) = Some logging.ProfileLogger
  /\ logging.profile_handlers (log_state (run_each cs w))
     = logging.profile_handlers (log_state w).
Proof.
  apply (profile_sink_is_never_replaced
           (map (pair (mkSettings (Some true) (Some "/tmp") (Some "other")
                                  (Some true) None None true))
                (example_calls profiled_request))
           (profiled_world example_settings) logging.ProfileLogger).
  reflexivity.
Defined.

Lemma emit_after_log (lg lg' : logging.Logger) (lvl lvl' : Z)
      (msg msg' : string) (st : logging.State) :
  logging.emit lg lvl msg (logging.log lg' lvl' msg' st)
  = logging.emit lg lvl msg st.
Proof.
  destruct lg; reflexivity.
Qed.

(** [process_response] does not discard the profiler, and [process_view]
    is the only place that replaces it.  So when a profiled request
    reaches [process_response] without [process_view] having run for it
    (the profiler of an earlier request, with its statistics, is still in
    [self.profiler]), the statistics of that earlier view are logged once
    more, under the header of the new request. *)
Theorem stale_profiler_is_logged_again
        {Resp : Type} (settings settings' : Settings)
        (request request' : HttpRequest) (response response' : Resp)
        (w : World) (p : cProfile.Profile) (lg : logging.Logger) :
  profiling_requested settings request = true ->
  profiling_requested settings' request' = true ->
  _profile_log w = Some lg ->
  self_profiler w = Some p ->
  cProfile.has_stats p = true ->
  let w1 := snd (process_response settings request response w) in
  let r := process_response settings' request' response' w1 in
  fst r = Ok response'
  /\ logging.written (log_state (snd r))
     = (logging.written (log_state w1)
        ++ logging.emit lg logging.INFO (header_line request') (log_state w1)
        ++ logging.emit lg logging.INFO (stats_body p) (log_state w1))%list
  /\ option_map cProfile.collected (self_profiler (snd r))
     = Some (cProfile.collected p).
Proof.
  intros Hq Hq' Hl Hp Hc w1 r. subst r w1.
  rewrite (process_response_profiled settings request response w p lg)
    by assumption.
  cbn [snd].
  erewrite process_response_profiled;
    [|exact Hq'|exact Hl|reflexivity|exact Hc].
  cbn [fst snd]. unfold stats_body. cbn -[strip cProfile.report logging.emit].
  rewrite !emit_after_log, <- !app_assoc. auto.
Qed.

Lemma stale_profiler_is_logged_again_witness :
  let w := profiled_world example_settings in
  let w1 := snd (process_response example_settings profiled_request "one" w) in
  let r := process_response example_settings
                            (mkRequest [("profiling", "")] "/other/" "POST")
                            "two" w1 in
  fst r = Ok "two"
  /\ logging.written (log_state (snd r))
     = (logging.written (log_state w1)
        ++ logging.emit logging.ProfileLogger logging.INFO
                        "Profiling results for /other/ (HTTP POST):"
                        (log_state w1)
        ++ logging.emit logging.ProfileLogger logging.INFO
                        (stats_body
                           (profiler_after (example_view profiled_request [] [])))
                        (log_state w1))%list
  /\ option_map cProfile.collected (self_profiler (snd r))
     = Some (cProfile.collected
               (profiler_after (example_view profiled_request [] []))).
Proof.
  apply (stale_profiler_is_logged_again
           example_settings example_settings profiled_request
           (mkRequest [("profiling", "")] "/other/" "POST") "one" "two"
           (profiled_world example_settings)
           (profiler_after (example_view profiled_request [] []))
           logging.ProfileLogger); reflexivity.
Defined.

Lemma append_inv_head (a x y : string) : a ++ x = a ++ y -> x = y.
Proof.
  induction a as [|c a IH]; simpl; intros H; [exact H|].
  injection H as H. auto.
Qed.

Lemma join_inj (a x y : string) :
  os_path.startswith_slash x = os_path.startswith_slash y ->
  os_path.join a x = os_path.join a y -> x = y.
Proof.
  unfold os_path.join. intros ->.
  destruct (os_path.startswith_slash y); [auto|].
  destruct (String.eqb a "" || os_path.endswith_slash a)%bool; intros H.
  - eapply append_inv_head, H.
  - apply append_inv_head in H. injection H as H. exact H.
Qed.

(** The general log and the profile log are never the same file. *)
Lemma log_path_neq_prof_path (settings : Settings) :
  log_path settings <> prof_path settings.
Proof.
  unfold log_path, prof_path. intros H. apply join_inj in H.
  - apply append_inv_head in H. discriminate H.
  - destruct (str_of (LOGGING_NAME settings)); reflexivity.
Qed.

(** The first set-up in a process that has not touched logging. *)
Lemma ensure_loggers_from_initial (settings : Settings) :
  valid_config settings = true ->
  let w1 := snd (ensure_loggers settings initial_world) in
  _profile_log w1 = None
  /\ logging.written (log_state w1)
     = new_written initial_world w1
  /\ logging.opened (log_state w1) = [(log_path settings, logging.Append)]
  /\ logging.profile_level (log_state w1) = logging.NOTSET
  /\ logging.profile_handlers (log_state w1) = []
  /\ logging.root_level (log_state w1) = log_level settings
  /\ logging.root_handlers (log_state w1)
     = file_log settings
         :: (if DEBUG settings
             then [console_log (log_level settings) (format_str settings)]
             else []).
Proof.
  intros Hv w1. subst w1. unfold valid_config in Hv.
  apply andb_true_iff in Hv as [Hv Hn]. apply andb_true_iff in Hv as [He Hd].
  unfold ensure_loggers, bind, get, modify, ret.
  cbn [_logging_setup initial_world]. rewrite He, Hd, Hn. cbn [negb orb].
  fold (log_level settings) (format_str settings) (log_path settings).
  destruct (DEBUG settings); repeat split; reflexivity.
Qed.

(** [process_response] begins by making sure the sink exists. *)
Lemma process_response_after_sink {Resp : Type} (settings : Settings)
      (request : HttpRequest) (response : Resp) (w : World) :
  profiling_requested settings request = true ->
  process_response settings request response w
  = process_response settings request response
                     (snd (ensure_profile_logger settings w)).
Proof.
  intros Hq. unfold process_response. rewrite Hq.
  unfold bind, get, modify, ret. cbv beta.
  rewrite !ensure_profile_logger_eq. cbn [snd].
  destruct (profile_logger_wanted settings w) eqn:Hw; [|rewrite Hw; reflexivity].
  replace (profile_logger_wanted settings (with_profile_logger settings w))
    with false; [reflexivity|].
  unfold profile_logger_wanted. simpl. rewrite andb_false_r. reflexivity.
Qed.


Lemma written_log (lg : logging.Logger) (lvl : Z) (msg : string)
      (st : logging.State) :
  logging.written (logging.log lg lvl msg st)
  = (logging.written st ++ logging.emit lg lvl msg st)%list.
Proof.
  reflexivity.
Qed.

(** What a profiled [process_response] adds to the written lines. *)
Lemma new_written_profiled {Resp : Type} (settings : Settings)
      (request : HttpRequest) (response : Resp) (w : World)
      (p : cProfile.Profile) (lg : logging.Logger) :
  profiling_requested settings request = true ->
  _profile_log w = Some lg ->
  self_profiler w = Some p ->
  cProfile.has_stats p = true ->
  new_written w (snd (process_response settings request response w))
  = (logging.emit lg logging.INFO (header_line request) (log_state w)
     ++ logging.emit lg logging.INFO (stats_body p) (log_state w))%list.
Proof.
  intros Hq Hl Hp Hc.
  rewrite (process_response_profiled settings request response w p lg)
    by assumption.
  unfold new_written. cbn [snd on_logging log_state set_profiler].
  rewrite !written_log, emit_after_log, <- app_assoc.
  apply skipn_length_app.
Qed.

(** An INFO record on the profile logger, in a process set up by
    [ensure_loggers] and [ensure_profile_logger] under the same settings
    with a level of at most INFO, reaches the profile file and the general
    log file, once each. *)
Lemma profile_emit_reaches_both_files (settings : Settings) (msg : string)
      (st : logging.State) :
  log_level settings <= logging.INFO ->
  logging.profile_level st = logging.NOTSET ->
  logging.root_level st = log_level settings ->
  logging.profile_handlers st
  = [profile_handler (str_of (LOGGING_DIRECTORY settings))
                     (str_of (LOGGING_NAME settings))] ->
  logging.root_handlers st
  = file_log settings
      :: (if DEBUG settings
          then [console_log (log_level settings) (format_str settings)]
          else []) ->
  messages_to (logging.FileSink (prof_path settings) logging.Append)
              (logging.emit logging.ProfileLogger logging.INFO msg st)
  = [msg]
  /\ messages_to (logging.FileSink (log_path settings) logging.Append)
                 (logging.emit logging.ProfileLogger logging.INFO msg st)
     = [msg].
Proof.
  intros Hl Hpl Hrl Hph Hrh.
  pose proof (log_path_neq_prof_path settings) as Hne.
  assert (E1 : String.eqb (log_path settings) (prof_path settings) = false)
    by (apply String.eqb_neq; exact Hne).
  assert (E2 : String.eqb (prof_path settings) (log_path settings) = false)
    by (apply String.eqb_neq; congruence).
  apply Z.leb_le in Hl.
  unfold logging.emit, logging.isEnabledFor, logging.getEffectiveLevel,
    logging.handlers_for.
  rewrite Hpl, Hrl, Hph, Hrh. cbn [Z.eqb logging.NOTSET]. rewrite Hl.
  unfold messages_to, logging.handle, profile_handler, file_log, console_log.
  fold (prof_path settings).
  destruct (DEBUG settings); cbn -[String.eqb log_path prof_path Z.leb];
    rewrite ?Hl; cbn -[String.eqb log_path prof_path];
    rewrite ?String.eqb_refl, ?E1, ?E2; cbn; auto.
Qed.

(** A profiler that has run a call has statistics: at least its own
    [disable]. *)
Lemma profiler_after_has_stats {R : Type} (run : ViewRun R) :
  cProfile.has_stats (profiler_after run) = true.
Proof.
  unfold profiler_after, cProfile.record_call, cProfile.has_stats. simpl.
  destruct (vr_observed run); reflexivity.
Qed.

(** The first profiled request of a process, under a complete
    configuration that allows profiling and a level of at most INFO, with
    no keyword argument named after a parameter of [runcall], from
    [process_request] to [process_response]: the view's outcome is passed
    through, the response is returned, exactly the general log file and
    the profile file have been opened (in that order), and the header line
    and the statistics are each written once to the profile file and, the
    profile logger propagating to the root logger, once to the general log
    file as well. *)
Theorem first_profiled_request
        {A R Resp : Type} (settings : Settings) (request : HttpRequest)
        (callback : View A R) (callback_args : list A)
        (callback_kwargs : list (string * A)) (response : Resp) :
  valid_config settings = true ->
  getattr (LOGGING_ALLOW_PROFILING settings) false = true ->
  in_GET "profiling" request = true ->
  cProfile.binds_runcall_parameter callback_kwargs = false ->
  log_level settings <= logging.INFO ->
  let w1 := snd (process_request settings request initial_world) in
  let v := process_view settings request callback callback_args
                        callback_kwargs w1 in
  let r := process_response settings request response (snd v) in
  let records :=
    [header_line request;
     strip (cProfile.report
              cProfile.time None
              (vr_observed (callback request callback_args callback_kwargs)
               ++ [cProfile.disable_row]))] in
  fst v = call_view callback request callback_args callback_kwargs
  /\ fst r = Ok response
  /\ logging.opened (log_state (snd r))
     = [(log_path settings, logging.Append);
        (prof_path settings, logging.Append)]
  /\ messages_to (logging.FileSink (prof_path settings) logging.Append)
                 (new_written (snd v) (snd r))
     = records
  /\ messages_to (logging.FileSink (log_path settings) logging.Append)
                 (new_written (snd v) (snd r))
     = records.
Proof.
  intros Hv Ha Hq Hk Hl w1 v r records. subst records r v w1.
  destruct (ensure_loggers_from_initial settings Hv)
    as (Hnone & _ & Hop & Hpl & Hph & Hrl & Hrh).
  unfold process_request.
  set (w1 := snd (ensure_loggers settings initial_world)) in *.
  assert (Hreq : profiling_requested settings request = true)
    by (unfold profiling_requested; rewrite Hq, Ha; reflexivity).
  rewrite process_view_eq, Hq, Ha, Hk. cbn [andb fst snd].
  split; [reflexivity|].
  set (p := profiler_after (callback request callback_args callback_kwargs)).
  assert (Hc : cProfile.has_stats p = true)
    by apply profiler_after_has_stats.
  rewrite process_response_after_sink by assumption.
  rewrite ensure_profile_logger_eq. cbn [snd].
  replace (profile_logger_wanted settings (set_profiler (Some p) w1))
    with true
    by (unfold profile_logger_wanted; simpl; rewrite Hv, Ha, Hnone; reflexivity).
  set (w3 := with_profile_logger settings (set_profiler (Some p) w1)).
  assert (H3 : _profile_log w3 = Some logging.ProfileLogger) by reflexivity.
  assert (P3 : self_profiler w3 = Some p) by reflexivity.
  split; [rewrite (process_response_profiled settings request response w3 p
                                            logging.ProfileLogger)
            by assumption; reflexivity|].
  split.
  - pose proof (process_response_setup settings request response w3) as E.
    unfold profile_logger_wanted in E. rewrite H3 in E. simpl in E.
    rewrite andb_false_r, andb_false_r in E.
    injection E as _ _ _ _ _ _ E7. rewrite E7. subst w3. simpl.
    rewrite Hop. reflexivity.
  - change (new_written (set_profiler (Some p) w1))
      with (new_written w3).
    rewrite (new_written_profiled settings request response w3 p
                                  logging.ProfileLogger)
      by assumption.
    rewrite !messages_to_app.
    assert (S3 : log_state w3
                 = logging.addHandler
                     logging.ProfileLogger
                     (profile_handler (str_of (LOGGING_DIRECTORY settings))
                                      (str_of (LOGGING_NAME settings)))
                     (log_state w1)) by reflexivity.
    assert (B : forall msg,
               messages_to (logging.FileSink (prof_path settings) logging.Append)
                 (logging.emit logging.ProfileLogger logging.INFO msg
                               (log_state w3)) = [msg]
               /\ messages_to (logging.FileSink (log_path settings) logging.Append)
                    (logging.emit logging.ProfileLogger logging.INFO msg
                                  (log_state w3)) = [msg]).
    { intros msg. apply profile_emit_reaches_both_files; rewrite ?S3; simpl;
        try assumption. rewrite Hph. reflexivity. }
    rewrite !(proj1 (B _)), !(proj2 (B _)). auto.
Qed.

Lemma first_profiled_request_witness :
  let w1 := snd (process_request example_settings profiled_request
                                 initial_world) in
  let v := process_view example_settings profiled_request example_view [] []
                        w1 in
  let r := process_response example_settings profiled_request "response"
                            (snd v) in
  let records :=
    [header_line profiled_request;
     strip (cProfile.report
              cProfile.time None
              (vr_observed (example_view profiled_request [] [])
               ++ [cProfile.disable_row]))] in
  fst v = Ok (Some "body")
  /\ fst r = Ok "response"
  /\ logging.opened (log_state (snd r))
     = [("/var/log/site.log", logging.Append);
        ("/var/log/site.prof", logging.Append)]
  /\ messages_to (logging.FileSink "/var/log/site.prof" logging.Append)
                 (new_written (snd v) (snd r))
     = records
  /\ messages_to (logging.FileSink "/var/log/site.log" logging.Append)
                 (new_written (snd v) (snd r))
     = records.
Proof.
  apply (first_profiled_request example_settings profiled_request example_view
                                [] [] "response"); try reflexivity.
  unfold log_level, logging.INFO. simpl. unfold logging.DEBUG. lia.
Defined.

Lemma ensure_loggers_fresh_setup (settings : Settings) (w : World) :
  valid_config settings = true ->
  _logging_setup w = false ->
  logging.root_handlers (log_state w) = [] ->
  let w' := snd (ensure_loggers settings w) in
  _logging_setup w' = true
  /\ _profile_log w' = _profile_log w
  /\ logging.opened (log_state w')
     = (logging.opened (log_state w) ++ [(log_path settings, logging.Append)])%list.
Proof.
  intros Hv Hs Hr w'. subst w'. unfold valid_config in Hv.
  apply andb_true_iff in Hv as [Hv Hn]. apply andb_true_iff in Hv as [He Hd].
  unfold ensure_loggers, bind, get, modify, ret.
  rewrite Hs, He, Hd, Hn. simpl.
  fold (log_level settings) (format_str settings) (log_path settings).
  unfold on_logging, logging.info, logging.basicConfig. cbn [log_state].
  rewrite Hr.
  destruct (DEBUG settings); cbn; rewrite Hr; cbn; rewrite ?app_nil_r; auto.
Qed.

Lemma step_files_invariant {A R : Type} (settings : Settings) (c : Call A R)
      (w : World) :
  files_invariant settings (setup_of w) ->
  files_invariant settings (setup_of (step settings c w)).
Proof.
  intros Inv. destruct c; simpl.
  - unfold process_request.
    destruct (_logging_setup w) eqn:Hs;
      [rewrite ensure_loggers_done by assumption; exact Inv|].
    destruct (valid_config settings) eqn:Hv;
      [|rewrite ensure_loggers_skip by assumption; exact Inv].
    destruct Inv as [Hroot Inv]. simpl in Hroot, Inv.
    specialize (Hroot Hs).
    destruct (ensure_loggers_fresh_setup settings w Hv Hs Hroot)
      as (F1 & F2 & F3).
    unfold files_invariant. simpl. rewrite F1, F2, F3.
    split; [discriminate|].
    destruct Inv as [(_ & N & O)|[(T & _)|[(_ & N & O)|(T & _)]]];
      try congruence; rewrite O; simpl; auto 8.
  - rewrite process_view_setup. exact Inv.
  - rewrite process_response_setup.
    destruct (profiling_requested settings request
              && profile_logger_wanted settings w) eqn:Hw; [|exact Inv].
    apply andb_true_iff in Hw as [_ Hw]. unfold profile_logger_wanted in Hw.
    apply andb_true_iff in Hw as [Hw _]. apply andb_true_iff in Hw as [_ Hw].
    assert (N : _profile_log w = None)
      by (destruct (_profile_log w); [discriminate|reflexivity]).
    destruct Inv as [Hroot Inv]. simpl in Hroot, Inv.
    unfold files_invariant. simpl. fold (prof_path settings).
    split; [exact Hroot|].
    destruct Inv as [(S & _ & O)|[(S & _ & O)|[(_ & N' & _)|(_ & N' & _)]]];
      try congruence; rewrite S, O; simpl.
    + right. right. left. repeat split; auto. discriminate.
    + right. right. right. repeat split; auto. discriminate.
Qed.

(** In a process that starts with logging untouched and runs under one
    configuration, the hooks never open any file but the general log file
    and the profile file, and open each of the two at most once, however
    many requests are served. *)
Theorem only_two_files_each_opened_once
        {A R : Type} (settings : Settings) (cs : list (Call A R)) :
  let opened := logging.opened (log_state (run settings cs initial_world)) in
  NoDup opened
  /\ incl opened [(log_path settings, logging.Append);
                  (prof_path settings, logging.Append)].
Proof.
  assert (Inv : files_invariant settings
                  (setup_of (run settings cs initial_world))).
  { assert (G : forall w, files_invariant settings (setup_of w) ->
                          files_invariant settings (setup_of (run settings cs w))).
    { induction cs as [|c cs IH]; intros w I; [exact I|].
      unfold run in *. simpl. apply IH, step_files_invariant, I. }
    apply G. split; [reflexivity|]. left. auto. }
  destruct Inv as [_ Inv]. simpl in Inv.
  pose proof (log_path_neq_prof_path settings) as Hne.
  assert (D : (log_path settings, logging.Append)
              <> (prof_path settings, logging.Append)) by congruence.
  assert (D' : (prof_path settings, logging.Append)
               <> (log_path settings, logging.Append)) by congruence.
  cbv zeta.
  destruct Inv as [(_ & _ & ->)|[(_ & _ & ->)|[(_ & _ & ->)|(_ & _ & [->| ->])]]];
    (split; [repeat constructor; simpl; intuition | intros x Hx; simpl in *; intuition]).
Qed.

(** Profiling is transparent when no keyword argument is named after a
    parameter of [runcall]: with profiling active, [process_view] returns
    exactly what the view returns when called directly with the request
    and the same arguments (and raises what it raises), and the only
    change to the world is that [self.profiler] holds a new profiler with
    the statistics of that call alone. *)
Theorem process_view_is_transparent
        {A R : Type} (settings : Settings) (request : HttpRequest)
        (callback : View A R) (callback_args : list A)
        (callback_kwargs : list (string * A)) (w : World) :
  in_GET "profiling" request = true ->
  getattr (LOGGING_ALLOW_PROFILING settings) false = true ->
  cProfile.binds_runcall_parameter callback_kwargs = false ->
  process_view settings request callback callback_args callback_kwargs w
  = (call_view callback request callback_args callback_kwargs,
     set_profiler
       (Some (cProfile.mkProfile
                (vr_observed (callback request callback_args callback_kwargs)
                 ++ [cProfile.disable_row])
                None)) w).
Proof.
  intros Hq Ha Hk. rewrite process_view_eq, Hq, Ha, Hk. reflexivity.
Qed.

Lemma process_view_is_transparent_witness :
  process_view example_settings profiled_request example_view [4]
               [("page", 2)] initial_world
  = (Ok (Some "body"),
     set_profiler
       (Some (cProfile.mkProfile
                [cProfile.mkRow "views.py:3(index)" 1 5 1200;
                 cProfile.mkRow "db.py:9(query)" 3 1100 1100;
                 cProfile.disable_row]
                None)) initial_world).
Proof.
  apply (process_view_is_transparent
           example_settings profiled_request example_view [4] [("page", 2)]
           initial_world); reflexivity.
Defined.

(** A keyword argument named [self] or [func] on a profiled request:
    [process_view] raises TypeError without running the view and leaves an
    empty profiler in [self.profiler]; the [process_response] that follows
    raises the TypeError of [pstats.Stats] from inside [print_stats(1)],
    logs nothing, and leaves [sys.stdout] replaced by the [StringIO]
    buffer. *)
Theorem runcall_collision_leaves_stdout_redirected
        {A R Resp : Type} (settings : Settings) (request : HttpRequest)
        (callback : View A R) (callback_args : list A)
        (callback_kwargs : list (string * A)) (response : Resp) (w : World) :
  in_GET "profiling" request = true ->
  getattr (LOGGING_ALLOW_PROFILING settings) false = true ->
  cProfile.binds_runcall_parameter callback_kwargs = true ->
  let v := process_view settings request callback callback_args
                        callback_kwargs w in
  let r := process_response settings request response (snd v) in
  fst v = Raise cProfile.runcall_error
  /\ self_profiler (snd v) = Some cProfile.new
  /\ fst r = Raise cProfile.no_stats_error
  /\ sys_stdout (snd r) = StringIO ""
  /\ logging.written (log_state (snd r)) = logging.written (log_state w).
Proof.
  intros Hq Ha Hk v r. subst r v.
  rewrite process_view_eq, Hq, Ha, Hk. cbn [andb fst snd].
  split; [reflexivity|]. split; [reflexivity|].
  unfold process_response, profiling_requested. rewrite Hq, Ha. cbn [andb].
  unfold_hooks. rewrite ensure_profile_logger_eq.
  destruct (profile_logger_wanted settings
                                  (set_profiler (Some cProfile.new) w));
    simpl; auto.
Qed.

Lemma runcall_collision_leaves_stdout_redirected_witness :
  let v := process_view example_settings profiled_request example_view []
                        [("self", 1)] initial_world in
  let r := process_response example_settings profiled_request "response"
                            (snd v) in
  fst v = Raise cProfile.runcall_error
  /\ self_profiler (snd v) = Some cProfile.new
  /\ fst r = Raise cProfile.no_stats_error
  /\ sys_stdout (snd r) = StringIO ""
  /\ logging.written (log_state (snd r)) = [].
Proof.
  apply (runcall_collision_leaves_stdout_redirected
           example_settings profiled_request example_view [] [("self", 1)]
           "response" initial_world); reflexivity.
Defined.
